(** * nlp_architect.utils.embedding: loaders and matrix builders

    A shallow embedding of the four module-level functions of
    [nlp_architect/utils/embedding.py]:

    - [load_word_embeddings]  (lines 32-58)
    - [fill_embedding_mat]    (lines 61-79)
    - [get_embedding_matrix]  (lines 82-112)
    - [load_embedding_file]   (lines 115-133)

    The two wrapper classes of the file ([ELMoEmbedderTFHUB],
    [FasttextEmbeddingsModel]) only forward to external libraries and are
    not modelled.  Python exceptions are values of [exn] carried by the
    [result] monad, dictionaries are insertion-ordered association lists
    ([PyDict]), numpy arrays are lists (of lists) and an assignment
    [mat[i] = vec] is a checked list update with numpy's index wrap-around
    and broadcasting written out. *)

From Stdlib Require Import Ascii String QArith.
From stdpp Require Import base option list strings.

Local Open Scope Z_scope.

(** ** Exceptions and fallible computations *)

Inductive exn : Set :=
| StopIteration   (* next() on an exhausted iterator *)
| IndexError      (* sequence index out of range *)
| ValueError.     (* failed conversion, negative dimension, shape mismatch *)

Inductive result (A : Type) : Type :=
| Ok (a : A)
| Raise (e : exn).
Arguments Ok {A} a.
Arguments Raise {A} e.

#[global] Instance result_ret : MRet result := fun A a => Ok a.
#[global] Instance result_bind : MBind result := fun A B f m =>
  match m with
  | Ok a => f a
  | Raise e => Raise e
  end.

(** A [for] loop whose body may raise: the state is threaded from left to
    right and the first exception aborts the loop. *)
Fixpoint for_each {S X : Type} (body : S -> X -> result S) (xs : list X) (s : S)
  : result S :=
  match xs with
  | [] => Ok s
  | x :: xs' => s' ← body s x; for_each body xs' s'
  end.

(** [[f(x) for x in xs]] where [f] may raise. *)
Fixpoint map_result {X Y : Type} (f : X -> result Y) (xs : list X) : result (list Y) :=
  match xs with
  | [] => Ok []
  | x :: xs' => y ← f x; ys ← map_result f xs'; Ok (y :: ys)
  end.

(** ** Strings

    A [str] is modelled by [string]; its characters are read as the code
    points below 256.  [str_lower] and [is_space] are Python's [str.lower]
    and [str.isspace] on that range. *)

Definition is_space (c : ascii) : bool :=
  let n := N_of_ascii c in
  ((9 <=? n) && (n <=? 13) || (28 <=? n) && (n <=? 32)
   || (n =? 133) || (n =? 160))%N.

Definition lower_char (c : ascii) : ascii :=
  let n := N_of_ascii c in
  if ((65 <=? n) && (n <=? 90)
      || (192 <=? n) && (n <=? 222) && negb (n =? 215))%N
  then ascii_of_N (n + 32) else c.

Fixpoint str_lower (s : string) : string :=
  match s with
  | EmptyString => EmptyString
  | String c s' => String (lower_char c) (str_lower s')
  end.

(** [s.split()]: the maximal runs of non-whitespace characters.  [cur] is
    the run being read, most recent character first. *)
Fixpoint split_from (cur : list ascii) (s : string) : list string :=
  match s with
  | EmptyString =>
      match cur with
      | [] => []
      | _ => [string_of_list_ascii (rev cur)]
      end
  | String c s' =>
      if is_space c then
        match cur with
        | [] => split_from [] s'
        | _ => string_of_list_ascii (rev cur) :: split_from [] s'
        end
      else split_from (c :: cur) s'
  end.

Definition split (s : string) : list string := split_from [] s.

(** ** Insertion-ordered dictionaries

    A [dict] keeps its keys in insertion order, which [iter], [values] and
    [items] follow. *)

Module PyDict.
Section Dict.
Context {K V : Type} `{EqDecision K}.

(** [d.get(k)] *)
Fixpoint get (k : K) (d : list (K * V)) : option V :=
  match d with
  | [] => None
  | (k', v) :: d' => if decide (k' = k) then Some v else get k d'
  end.

(** [d[k] = v]: an existing key keeps its position, a new key is appended. *)
Fixpoint setitem (k : K) (v : V) (d : list (K * V)) : list (K * V) :=
  match d with
  | [] => [(k, v)]
  | (k', v') :: d' =>
      if decide (k' = k) then (k, v) :: d' else (k', v') :: setitem k v d'
  end.

Definition items (d : list (K * V)) : list (K * V) := d.
Definition values (d : list (K * V)) : list V := d.*2.
Definition len (d : list (K * V)) : nat := length d.

End Dict.
End PyDict.

(** ** Floating-point values

    The numeric type of the arrays and the conversion of a text field to a
    number belong to numpy; the functions below only convert, copy and
    zero-fill, so they are taken through an interface. *)

Class FloatModel := {
  F : Type;
  fzero : F;                            (* 0.0 *)
  float32_of_str : string -> option F;  (* numpy, dtype="float32" *)
  float_of_str : string -> option F;    (* Python's float() *)
}.

(** [next(iter(xs))] *)
Definition next_iter {A : Type} (xs : list A) : result A :=
  match xs with
  | [] => Raise StopIteration
  | x :: _ => Ok x
  end.

(** [enumerate(xs)], counting from [n]. *)
Fixpoint enumerate_from {A : Type} (n : nat) (xs : list A) : list (nat * A) :=
  match xs with
  | [] => []
  | x :: xs' => (n, x) :: enumerate_from (S n) xs'
  end.

Definition enumerate {A : Type} (xs : list A) : list (nat * A) :=
  enumerate_from 0 xs.

(** [str(o)] for the result of a [dict.get]: [None] prints as its name. *)
Definition str_of_get (o : option string) : string :=
  match o with
  | Some s => s
  | None => "None"
  end.

(** The class [Vocabulary] of [nlp_architect.utils.text], which this module
    imports and only reads. *)
Module Vocabulary.

(** Modelled from the spec: the class [Vocabulary], whose source is in
    another module.  It "exposes a mapping from token string to integer id",
    here the property [vocab], a dictionary. *)
Record t := { vocab : list (string * Z) }.

(** Modelled from the spec: [len(vocab)] of the class [Vocabulary], "the
    total count of distinct tokens", the number of entries of the mapping. *)
Definition len (v : t) : nat := PyDict.len (vocab v).

End Vocabulary.

Section Embedding.
Context `{FloatModel}.

(** ** numpy arrays *)

Definition zeros1 (n : nat) : list F := replicate n fzero.

(** [np.zeros((r, c))]; a negative dimension is a [ValueError]. *)
Definition np_zeros2 (r c : Z) : result (list (list F)) :=
  if (r <? 0) || (c <? 0) then Raise ValueError
  else Ok (replicate (Z.to_nat r) (zeros1 (Z.to_nat c))).

(** [np.zeros((a, b, c))] *)
Definition np_zeros3 (a b c : Z) : result (list (list (list F))) :=
  if (a <? 0) || (b <? 0) || (c <? 0) then Raise ValueError
  else Ok (replicate (Z.to_nat a) (replicate (Z.to_nat b) (zeros1 (Z.to_nat c)))).

(** The value written by an assignment of [vec] to a row of [n] cells: a
    vector of that length as it is, a vector of length one repeated, any
    other length a [ValueError]. *)
Definition broadcast (n : nat) (vec : list F) : result (list F) :=
  if (length vec =? n)%nat then Ok vec
  else match vec with
       | [x] => Ok (replicate n x)
       | _ => Raise ValueError
       end.

(** An index into an axis of length [n]: negative indices count from the
    end, anything outside [-n, n) is an [IndexError]. *)
Definition norm_index (n : nat) (i : Z) : result nat :=
  if (0 <=? i) && (i <? Z.of_nat n) then Ok (Z.to_nat i)
  else if (- Z.of_nat n <=? i) && (i <? 0) then Ok (Z.to_nat (i + Z.of_nat n))
  else Raise IndexError.

(** [mat[i] = vec] on a matrix with [cols] columns. *)
Definition set_row (cols : nat) (mat : list (list F)) (i : Z) (vec : list F)
  : result (list (list F)) :=
  k ← norm_index (length mat) i;
  row ← broadcast cols vec;
  Ok (<[k := row]> mat).

(** [t[i][j] = vec] on a tensor whose cells have [size] entries. *)
Definition set_cell (size : nat) (t : list (list (list F))) (i j : nat)
    (vec : list F) : result (list (list (list F))) :=
  match t !! i with
  | None => Raise IndexError
  | Some row =>
      if (j <? length row)%nat then
        cell ← broadcast size vec;
        Ok (<[i := <[j := cell]> row]> t)
      else Raise IndexError
  end.

(** [np.asarray(fields, dtype="float32")] *)
Definition asarray_float32 (fields : list string) : result (list F) :=
  map_result (fun s => match float32_of_str s with
                       | Some x => Ok x
                       | None => Raise ValueError
                       end) fields.

(** [np.array([float(val) for val in fields])] *)
Definition array_of_floats (fields : list string) : result (list F) :=
  map_result (fun s => match float_of_str s with
                       | Some x => Ok x
                       | None => Raise ValueError
                       end) fields.

(** ** [load_word_embeddings] (lines 32-58)

    [fp] is the opened file as the [for] loop reads it, line by line;
    [vocab] is the optional list of tokens to keep.  The state of the loop
    is [(word_vectors, size)]. *)

Definition starts_with_space (line : string) : result bool :=
  match line with
  | EmptyString => Raise IndexError
  | String c _ => Ok (bool_decide (c = " "%char))
  end.

Definition in_vocab (vocab : option (list string)) (w : string) : bool :=
  match vocab with
  | None => true
  | Some l => bool_decide (w ∈ l)
  end.

Definition load_word_embeddings_line (vocab : option (list string))
    (st : list (string * list F) * option nat) (line : string)
  : result (list (string * list F) * option nat) :=
  let '(word_vectors, size) := st in
  let line_fields := split line in
  if (length line_fields <? 5)%nat then Ok st
  else
    sp ← starts_with_space line;
    if sp : bool then
      v ← asarray_float32 line_fields;
      Ok (PyDict.setitem " " v word_vectors, size)
    else
      match line_fields with
      | [] => Raise IndexError
      | w :: rest =>
          if in_vocab vocab w then
            v ← asarray_float32 rest;
            Ok (PyDict.setitem w v word_vectors,
                match size with
                | None => Some (length rest)
                | Some _ => size
                end)
          else Ok st
      end.

Definition load_word_embeddings (fp : list string) (vocab : option (list string))
  : result (list (string * list F) * option nat) :=
  for_each (load_word_embeddings_line vocab) fp ([], None).

(** ** [fill_embedding_mat] (lines 61-79)

    [src_mat] is a two-dimensional integer array given by its rows (an
    array without rows is [[]] whatever its second dimension). *)

Definition shape0 {A : Type} (m : list (list A)) : nat := length m.
Definition shape1 {A : Type} (m : list (list A)) : nat :=
  match m with
  | [] => 0
  | r :: _ => length r
  end.

Definition fill_cell (src_lex : list (Z * string)) (emb_lex : list (string * list F))
    (emb_size : Z) (i : nat) (emb_mat : list (list (list F))) (jw : nat * Z)
  : result (list (list (list F))) :=
  let '(j, w) := jw in
  if 0 <? w then
    match PyDict.get (str_lower (str_of_get (PyDict.get w src_lex))) emb_lex with
    | Some w_emb => set_cell (Z.to_nat emb_size) emb_mat i j w_emb
    | None => Ok emb_mat
    end
  else Ok emb_mat.

Definition fill_embedding_mat (src_mat : list (list Z)) (src_lex : list (Z * string))
    (emb_lex : list (string * list F)) (emb_size : Z)
  : result (list (list (list F))) :=
  emb_mat ← np_zeros3 (Z.of_nat (shape0 src_mat)) (Z.of_nat (shape1 src_mat)) emb_size;
  for_each (fun emb_mat '(i, sen) =>
              for_each (fill_cell src_lex emb_lex emb_size i) (enumerate sen) emb_mat)
           (enumerate src_mat) emb_mat.

(** ** [get_embedding_matrix] (lines 82-112) *)

(** Truth value of the optional argument in [if embedding_size:]. *)
Definition truthy (o : option Z) : bool :=
  match o with
  | None => false
  | Some n => negb (n =? 0)
  end.

Definition get_embedding_matrix (embeddings : list (string * list F))
    (vocab : Vocabulary.t) (embedding_size : option Z) (lowercase_only : bool)
  : result (list (list F)) :=
  first ← next_iter (PyDict.values embeddings);
  let emb_size := length first in
  mat ← (if truthy embedding_size
         then np_zeros2 (default 0 embedding_size) (Z.of_nat emb_size)
         else np_zeros2 (Z.of_nat (Vocabulary.len vocab)) (Z.of_nat emb_size));
  if lowercase_only then
    for_each (fun mat '(word, wid) =>
                let vec := PyDict.get (str_lower word) embeddings in
                match vec with
                | Some vec => set_row emb_size mat wid vec
                | None => Ok mat
                end)
             (PyDict.items (Vocabulary.vocab vocab)) mat
  else
    for_each (fun mat '(word, wid) =>
                let vec := PyDict.get word embeddings in
                let vec := match vec with
                           | None => PyDict.get (str_lower word) embeddings
                           | Some _ => vec
                           end in
                match vec with
                | Some vec => set_row emb_size mat wid vec
                | None => Ok mat
                end)
             (PyDict.items (Vocabulary.vocab vocab)) mat.

(** ** [load_embedding_file] (lines 115-133)

    The optional argument [dim] is not used by the body; [fp] is the opened
    file read line by line. *)

Definition load_embedding_file_line (embedding_dict : list (string * list F))
    (line : string) : result (list (string * list F)) :=
  let split_line := split line in
  word ← match split_line with
         | [] => Raise IndexError
         | w :: _ => Ok w
         end;
  vec ← array_of_floats (tail split_line);
  Ok (PyDict.setitem word vec embedding_dict).

Definition load_embedding_file (fp : list string) : result (list (string * list F)) :=
  for_each load_embedding_file_line fp [].

End Embedding.

(** ** A model of the numbers for running the functions

    Plain decimal literals (an optional sign, digits, an optional point)
    read as exact rationals in lowest terms. *)

Definition digit_of (c : ascii) : option Z :=
  let n := N_of_ascii c in
  if ((48 <=? n) && (n <=? 57))%N then Some (Z.of_N (n - 48)) else None.

Fixpoint decimal_digits (s : string) (m : Z) (dot : bool) (k n : nat) : option Q :=
  match s with
  | EmptyString =>
      match n with
      | O => None
      | _ => Some (Qred (m # Z.to_pos (10 ^ Z.of_nat k)))
      end
  | String c s' =>
      if bool_decide (c = "."%char) then
        if dot then None else decimal_digits s' m true k n
      else
        match digit_of c with
        | Some d => decimal_digits s' (10 * m + d) dot (if dot then S k else k) (S n)
        | None => None
        end
  end.

Definition decimal_of_str (s : string) : option Q :=
  match s with
  | String c s' =>
      if bool_decide (c = "-"%char) then Qopp <$> decimal_digits s' 0 false 0 0
      else if bool_decide (c = "+"%char) then decimal_digits s' 0 false 0 0
      else decimal_digits s 0 false 0 0
  | EmptyString => None
  end.

#[global] Instance decimal_floats : FloatModel :=
  {| F := Q; fzero := 0%Q;
     float32_of_str := decimal_of_str; float_of_str := decimal_of_str |}.

Definition nl : string := String (ascii_of_N 10) EmptyString.


(** ** Auxiliary predicates used by the statements *)

(** The first character of [line] is a literal space. *)
Definition leading_space (line : string) : bool :=
  match line with
  | String c _ => bool_decide (c = " "%char)
  | EmptyString => false
  end.

(** The fields of [line] that [load_word_embeddings] converts to numbers. *)
Definition converted_fields (vocab : option (list string)) (line : string)
  : list string :=
  let fields := split line in
  if (length fields <? 5)%nat then []
  else if leading_space line then fields
  else match fields with
       | w :: rest => if in_vocab vocab w then rest else []
       | [] => []
       end.

(** [line] is stored under its own first field: it has at least five
    fields, does not begin with a space and passes the filter. *)
Definition stored_under_token (vocab : option (list string)) (line : string) : bool :=
  (5 <=? length (split line))%nat && negb (leading_space line)
  && in_vocab vocab (hd EmptyString (split line)).

(** Every field that [load_word_embeddings] converts is the text of a
    number: the condition under which the loader returns. *)
Definition numeric_file `{FloatModel} (vocab : option (list string))
    (fp : list string) : Prop :=
  Forall (fun line => Forall (fun f => is_Some (float32_of_str f))
                             (converted_fields vocab line)) fp.

(** The vector [get_embedding_matrix] finds for a token: the entry of the
    lowercased token only, or the entry of the token itself and, failing
    that, of the lowercased token. *)
Definition lookup_vec `{FloatModel} (lowercase_only : bool)
    (embeddings : list (string * list F)) (word : string) : option (list F) :=
  if lowercase_only then PyDict.get (str_lower word) embeddings
  else match PyDict.get word embeddings with
       | Some vec => Some vec
       | None => PyDict.get (str_lower word) embeddings
       end.

(** The dimension inferred from the first entry of a table. *)
Definition emb_dim `{FloatModel} (embeddings : list (string * list F)) : nat :=
  match embeddings with
  | [] => 0
  | (_, v) :: _ => length v
  end.

(** The number of rows [get_embedding_matrix] allocates. *)
Definition row_count (embedding_size : option Z) (vocab : Vocabulary.t) : Z :=
  if truthy embedding_size then default 0 embedding_size
  else Z.of_nat (Vocabulary.len vocab).

(** The body shared by the two loops of [get_embedding_matrix]. *)
Definition assign `{FloatModel} (lo : bool) (E : list (string * list F))
    (cols : nat) (mat : list (list F)) (item : string * Z)
  : result (list (list F)) :=
  match lookup_vec lo E item.1 with
  | Some vec => set_row cols mat item.2 vec
  | None => Ok mat
  end.

(** What row [wid] of [mat] holds for a token whose lookup gave [o]: the
    vector found, as the assignment writes it, or zeros (if the matrix has
    such a row at all). *)
Definition row_holds `{FloatModel} (E : list (string * list F))
    (mat : list (list F)) (wid : Z) (o : option (list F)) : Prop :=
  match o with
  | Some vec => exists row, broadcast (emb_dim E) vec = Ok row
                            /\ mat !! Z.to_nat wid = Some row
  | None => forall row, mat !! Z.to_nat wid = Some row -> row = zeros1 (emb_dim E)
  end.

(** The value [fill_embedding_mat] leaves in the cell of the id [w]: the
    vector of the lowercased source token as the assignment writes it, or
    zeros. *)
Definition cell_result `{FloatModel} (src_lex : list (Z * string))
    (emb_lex : list (string * list F)) (emb_size : Z) (w : Z) : result (list F) :=
  if 0 <? w then
    match PyDict.get (str_lower (str_of_get (PyDict.get w src_lex))) emb_lex with
    | Some w_emb => broadcast (Z.to_nat emb_size) w_emb
    | None => Ok (zeros1 (Z.to_nat emb_size))
    end
  else Ok (zeros1 (Z.to_nat emb_size)).

(** The value of a cell when every vector of the lexicon has [emb_size]
    entries. *)
Definition cell_value `{FloatModel} (src_lex : list (Z * string))
    (emb_lex : list (string * list F)) (emb_size : Z) (w : Z) : list F :=
  if 0 <? w then
    match PyDict.get (str_lower (str_of_get (PyDict.get w src_lex))) emb_lex with
    | Some w_emb => w_emb
    | None => zeros1 (Z.to_nat emb_size)
    end
  else zeros1 (Z.to_nat emb_size).

(** The table and the vocabulary of the worked example. *)
Definition example_table : list (string * list Q) :=
  [("cat", [1; 1]%Q); ("DOG", [2; 2]%Q)].
Definition example_vocab : Vocabulary.t :=
  {| Vocabulary.vocab := [("cat", 1); ("dog", 2)] |}.

(** The key under which [load_word_embeddings] stores a line, if it stores
    it: [" "] for an accepted line that begins with a space, the first
    field for an accepted line whose first field passes the filter. *)
Definition written_key (vocab : option (list string)) (line : string)
  : option string :=
  let fields := split line in
  if (length fields <? 5)%nat then None
  else if leading_space line then Some " "
  else match fields with
       | w :: _ => if in_vocab vocab w then Some w else None
       | [] => None
       end.

(** * Properties *)

Ltac unfold_result := unfold mbind, result_bind, mret, result_ret in *.

Section Loops.
Context {S X : Type} (body : S -> X -> result S).

Lemma for_each_app xs ys s :
  for_each body (xs ++ ys) s = s' ← for_each body xs s; for_each body ys s'.
Proof.
  revert s. induction xs as [|x xs IH]; intros s; simpl; [done|].
  unfold_result. destruct (body s x); [apply IH | done].
Qed.

Lemma for_each_cons_ok x xs s s' :
  body s x = Ok s' -> for_each body (x :: xs) s = for_each body xs s'.
Proof. intros Hb. simpl. unfold_result. by rewrite Hb. Qed.

Lemma for_each_ok_cons_inv x xs s s2 :
  for_each body (x :: xs) s = Ok s2 ->
  exists s1, body s x = Ok s1 /\ for_each body xs s1 = Ok s2.
Proof.
  simpl. unfold_result. destruct (body s x) as [s1|e]; [eauto | done].
Qed.

Lemma for_each_ok_app_inv xs ys s s2 :
  for_each body (xs ++ ys) s = Ok s2 ->
  exists s1, for_each body xs s = Ok s1 /\ for_each body ys s1 = Ok s2.
Proof.
  rewrite for_each_app. unfold_result.
  destruct (for_each body xs s) as [s1|e]; [eauto | done].
Qed.

(** A property kept by every successful iteration holds after the loop. *)
Lemma for_each_invariant (P : S -> Prop) xs s s' :
  (forall s x s', P s -> body s x = Ok s' -> P s') ->
  P s -> for_each body xs s = Ok s' -> P s'.
Proof.
  intros Hstep. revert s. induction xs as [|x xs IH]; intros s HP Hrun.
  - by simplify_eq/=.
  - apply for_each_ok_cons_inv in Hrun as (s1 & Hb & Hrest). eauto.
Qed.

(** The loop returns when every iteration does. *)
Lemma for_each_returns (P : X -> Prop) xs s :
  (forall s x, P x -> exists s', body s x = Ok s') ->
  Forall P xs -> exists s', for_each body xs s = Ok s'.
Proof.
  intros Hstep HP. revert s. induction HP as [|x xs Hx _ IH]; intros s.
  - by exists s.
  - destruct (Hstep s x Hx) as [s1 Hb].
    rewrite (for_each_cons_ok _ _ _ _ Hb). apply IH.
Qed.

End Loops.

Section DictLemmas.
Context {K V : Type} `{EqDecision K}.
Implicit Types (d : list (K * V)).

Lemma get_setitem k k' v d :
  PyDict.get k' (PyDict.setitem k v d)
  = if decide (k = k') then Some v else PyDict.get k' d.
Proof.
  induction d as [|[k0 v0] d IH]; simpl.
  - by repeat case_decide.
  - destruct (decide (k0 = k)) as [->|Hne]; simpl.
    + by repeat case_decide.
    + rewrite IH. repeat case_decide; congruence.
Qed.

Lemma get_setitem_eq k v d : PyDict.get k (PyDict.setitem k v d) = Some v.
Proof. rewrite get_setitem. by case_decide. Qed.

Lemma get_setitem_ne k k' v d :
  k <> k' -> PyDict.get k' (PyDict.setitem k v d) = PyDict.get k' d.
Proof. intros. rewrite get_setitem. by case_decide. Qed.

Lemma get_setitem_is_Some k k' v d :
  is_Some (PyDict.get k' d) -> is_Some (PyDict.get k' (PyDict.setitem k v d)).
Proof. rewrite get_setitem. case_decide; eauto. Qed.

End DictLemmas.

(** ** The text loader *)

Section Loader.
Context `{FloatModel}.
Implicit Types (vocab : option (list string)) (line : string) (fp : list string).

Lemma map_result_ok {X Y : Type} (f : X -> result Y) (xs : list X) :
  Forall (fun x => exists y, f x = Ok y) xs <->
  exists ys, map_result f xs = Ok ys.
Proof.
  induction xs as [|x xs IH]; simpl.
  - split; [by eexists | by constructor].
  - unfold_result. split.
    + intros Hall. inversion Hall as [|? ? [y Hy] Hxs]; subst.
      apply IH in Hxs as [ys Hys]. rewrite Hy, Hys. by eexists.
    + intros [zs Hzs]. destruct (f x) as [y|e] eqn:Hy; [|done].
      destruct (map_result f xs) as [ys|e] eqn:Hys; [|done].
      constructor; [by eexists | apply IH; by eexists].
Qed.

Lemma asarray_float32_ok fields :
  Forall (fun f => is_Some (float32_of_str f)) fields <->
  exists v, asarray_float32 fields = Ok v.
Proof.
  unfold asarray_float32. rewrite <- map_result_ok.
  apply Forall_proper; [|done]. intros f.
  destruct (float32_of_str f); split;
    [by eexists | by eexists | by intros [] | by intros []].
Qed.

(** The four ways a line is handled. *)

Lemma lwe_line_short vocab st line :
  (length (split line) < 5)%nat ->
  load_word_embeddings_line vocab st line = Ok st.
Proof.
  intros Hlen. unfold load_word_embeddings_line. destruct st as [d size].
  apply Nat.ltb_lt in Hlen. by rewrite Hlen.
Qed.

Lemma starts_with_space_accepted line :
  (5 <= length (split line))%nat ->
  starts_with_space line = Ok (leading_space line).
Proof. destruct line; simpl; [lia | done]. Qed.

Lemma lwe_line_space vocab d size line :
  (5 <= length (split line))%nat -> leading_space line = true ->
  load_word_embeddings_line vocab (d, size) line
  = v ← asarray_float32 (split line); Ok (PyDict.setitem " " v d, size).
Proof.
  intros Hlen Hsp. unfold load_word_embeddings_line.
  rewrite starts_with_space_accepted, Hsp by done.
  apply Nat.ltb_ge in Hlen. by rewrite Hlen.
Qed.

Lemma lwe_line_token vocab d size line w rest :
  (5 <= length (split line))%nat -> leading_space line = false ->
  split line = w :: rest -> in_vocab vocab w = true ->
  load_word_embeddings_line vocab (d, size) line
  = v ← asarray_float32 rest;
    Ok (PyDict.setitem w v d,
        match size with None => Some (length rest) | Some _ => size end).
Proof.
  intros Hlen Hsp Hsplit Hin. unfold load_word_embeddings_line.
  rewrite starts_with_space_accepted, Hsp by done.
  apply Nat.ltb_ge in Hlen. rewrite Hlen. simpl.
  by rewrite Hsplit, Hin.
Qed.

Lemma lwe_line_filtered vocab st line :
  (5 <= length (split line))%nat -> leading_space line = false ->
  in_vocab vocab (hd EmptyString (split line)) = false ->
  load_word_embeddings_line vocab st line = Ok st.
Proof.
  intros Hlen Hsp Hin. unfold load_word_embeddings_line. destruct st as [d size].
  rewrite starts_with_space_accepted, Hsp by done.
  apply Nat.ltb_ge in Hlen. rewrite Hlen. simpl.
  destruct (split line) as [|w rest]; simpl in *; [done|]. by rewrite Hin.
Qed.

Lemma lwe_line_returns vocab st line :
  Forall (fun f => is_Some (float32_of_str f)) (converted_fields vocab line) ->
  exists st', load_word_embeddings_line vocab st line = Ok st'.
Proof.
  unfold converted_fields. intros Hnum. destruct st as [d size].
  destruct (length (split line) <? 5)%nat eqn:Hlen.
  - apply Nat.ltb_lt in Hlen. rewrite lwe_line_short by done. by eexists.
  - apply Nat.ltb_ge in Hlen. destruct (leading_space line) eqn:Hsp.
    + rewrite lwe_line_space by done.
      apply asarray_float32_ok in Hnum as [v ->]. by eexists.
    + destruct (split line) as [|w rest] eqn:Hsplit; [simpl in Hlen; lia|].
      destruct (in_vocab vocab w) eqn:Hin.
      * rewrite (lwe_line_token _ _ _ _ w rest) by (done || by rewrite Hsplit).
        apply asarray_float32_ok in Hnum as [v ->]. by eexists.
      * rewrite lwe_line_filtered; [by eexists | by rewrite Hsplit | done |].
        by rewrite Hsplit.
Qed.

Lemma load_word_embeddings_returns fp vocab :
  numeric_file vocab fp -> exists r, load_word_embeddings fp vocab = Ok r.
Proof.
  intros Hnum. unfold load_word_embeddings.
  eapply for_each_returns; [|exact Hnum].
  intros st line. apply lwe_line_returns.
Qed.

(** A key of the table is never removed. *)
Lemma lwe_line_keeps_key vocab st st' line k :
  load_word_embeddings_line vocab st line = Ok st' ->
  is_Some (PyDict.get k st.1) -> is_Some (PyDict.get k st'.1).
Proof.
  unfold load_word_embeddings_line. destruct st as [d size]. simpl.
  destruct (length (split line) <? 5)%nat; [by intros [= <-]|].
  unfold_result. destruct (starts_with_space line) as [[]|]; [| |done].
  - destruct (asarray_float32 (split line)); [|done].
    intros [= <-] Hk. simpl. by apply get_setitem_is_Some.
  - destruct (split line) as [|w rest]; [done|].
    destruct (in_vocab vocab w); [|by intros [= <-]].
    destruct (asarray_float32 rest); [|done].
    intros [= <-] Hk. simpl. by apply get_setitem_is_Some.
Qed.

Lemma lwe_loop_keeps_key vocab fp st st' k :
  for_each (load_word_embeddings_line vocab) fp st = Ok st' ->
  is_Some (PyDict.get k st.1) -> is_Some (PyDict.get k st'.1).
Proof.
  intros Hrun Hk.
  eapply (for_each_invariant _ (fun s => is_Some (PyDict.get k s.1)));
    [|exact Hk|exact Hrun].
  intros s x s' Hs Hb. by eapply lwe_line_keeps_key.
Qed.

Lemma lwe_whitespace_entry fp vocab line d size :
  line ∈ fp -> leading_space line = true -> (5 <= length (split line))%nat ->
  load_word_embeddings fp vocab = Ok (d, size) ->
  is_Some (PyDict.get " " d).
Proof.
  intros Hin Hsp Hlen Hrun.
  apply list_elem_of_split in Hin as (pre & post & ->).
  apply for_each_ok_app_inv in Hrun as ([d1 s1] & _ & Hrun).
  apply for_each_ok_cons_inv in Hrun as ([d2 s2] & Hline & Hrun).
  apply (lwe_loop_keeps_key _ _ _ _ " ") in Hrun; [done|].
  rewrite lwe_line_space in Hline by done. unfold_result.
  destruct (asarray_float32 (split line)); [|done].
  injection Hline as <- <-. simpl. rewrite get_setitem_eq. by eexists.
Qed.

(** The size after one line, and after the whole loop. *)
Lemma lwe_line_size vocab line d size d1 size1 :
  load_word_embeddings_line vocab (d, size) line = Ok (d1, size1) ->
  size1 = match size with
          | Some _ => size
          | None => if stored_under_token vocab line
                    then Some (length (tail (split line))) else None
          end.
Proof.
  intros Hline. unfold stored_under_token.
  destruct (length (split line) <? 5)%nat eqn:Hlen.
  { apply Nat.ltb_lt in Hlen. rewrite lwe_line_short in Hline by done.
    injection Hline as <- <-.
    replace (5 <=? _)%nat with false by (symmetry; apply Nat.leb_gt; lia).
    by destruct size. }
  apply Nat.ltb_ge in Hlen.
  replace (5 <=? _)%nat with true by (symmetry; by apply Nat.leb_le).
  destruct (leading_space line) eqn:Hsp; simpl.
  { rewrite lwe_line_space in Hline by done. unfold_result.
    destruct (asarray_float32 (split line)); [|done].
    injection Hline as <- <-. by destruct size. }
  destruct (split line) as [|w rest] eqn:Hsplit; [simpl in Hlen; lia|]. simpl.
  destruct (in_vocab vocab w) eqn:Hin.
  - rewrite (lwe_line_token _ _ _ _ w rest) in Hline
      by (done || by rewrite Hsplit).
    unfold_result. destruct (asarray_float32 rest); [|done].
    by injection Hline as <- <-.
  - rewrite lwe_line_filtered in Hline;
      [|by rewrite Hsplit | done | by rewrite Hsplit].
    injection Hline as <- <-. by destruct size.
Qed.

Lemma lwe_loop_size vocab fp d size d' size' :
  for_each (load_word_embeddings_line vocab) fp (d, size) = Ok (d', size') ->
  size' = match size with
          | Some _ => size
          | None => (fun l => length (tail (split l)))
                      <$> List.find (stored_under_token vocab) fp
          end.
Proof.
  revert d size. induction fp as [|line fp IH]; intros d size Hrun.
  - simpl in Hrun. injection Hrun as <- <-. by destruct size.
  - apply for_each_ok_cons_inv in Hrun as ([d1 s1] & Hline & Hrun).
    apply IH in Hrun. apply lwe_line_size in Hline.
    rewrite Hrun, Hline. simpl.
    destruct size; [done|]. by destruct (stored_under_token vocab line).
Qed.

End Loader.

(** ** The matrix builder *)

Section Builder.
Context `{FloatModel}.
Implicit Types (E : list (string * list F)) (mat : list (list F)).

Lemma for_each_ext {S X : Type} (f g : S -> X -> result S) xs s :
  (forall s x, f s x = g s x) -> for_each f xs s = for_each g xs s.
Proof.
  intros Hfg. revert s. induction xs as [|x xs IH]; intros s; simpl; [done|].
  rewrite Hfg. unfold_result. destruct (g s x); [apply IH | done].
Qed.

Lemma get_embedding_matrix_unfold E V es lo :
  get_embedding_matrix E V es lo
  = first ← next_iter (PyDict.values E);
    mat ← np_zeros2 (row_count es V) (Z.of_nat (length first));
    for_each (assign lo E (length first)) (Vocabulary.vocab V) mat.
Proof.
  unfold get_embedding_matrix, row_count, PyDict.items. unfold_result.
  destruct (next_iter (PyDict.values E)) as [first|e]; [|done].
  destruct (truthy es);
    (destruct (np_zeros2 _ _) as [mat|e]; [|by destruct lo]);
    (destruct lo; apply for_each_ext; intros m [word wid];
     unfold assign, lookup_vec; simpl; by destruct (PyDict.get word E)).
Qed.

Lemma next_iter_values E first :
  next_iter (PyDict.values E) = Ok first -> length first = emb_dim E.
Proof. destruct E as [|[k v] E]; simpl; [done|]. by intros [= <-]. Qed.

Lemma np_zeros2_ok r c mat :
  np_zeros2 r c = Ok mat ->
  0 <= r /\ mat = replicate (Z.to_nat r) (zeros1 (Z.to_nat c)).
Proof.
  unfold np_zeros2. destruct (r <? 0) eqn:Hr; simpl; [done|].
  destruct (c <? 0); simpl; [done|]. intros [= <-]. split; [lia | done].
Qed.

Lemma broadcast_length cols vec row :
  broadcast cols vec = Ok row -> length row = cols.
Proof.
  unfold broadcast. destruct (length vec =? cols)%nat eqn:Hlen.
  - intros [= <-]. by apply Nat.eqb_eq.
  - destruct vec as [|x [|y vec]]; [done| |done].
    intros [= <-]. apply length_replicate.
Qed.

Lemma broadcast_same cols vec : length vec = cols -> broadcast cols vec = Ok vec.
Proof. intros Hlen. unfold broadcast. apply Nat.eqb_eq in Hlen. by rewrite Hlen. Qed.

Lemma norm_index_nonneg n i k :
  norm_index n i = Ok k -> 0 <= i -> k = Z.to_nat i /\ (k < n)%nat.
Proof.
  unfold norm_index. intros Hk Hi.
  destruct ((0 <=? i) && (i <? Z.of_nat n)) eqn:Hin.
  - injection Hk as <-. apply andb_true_iff in Hin as [_ Hlt]. lia.
  - destruct ((- Z.of_nat n <=? i) && (i <? 0)) eqn:Hneg; [|done].
    apply andb_true_iff in Hneg as [_ Hlt]. lia.
Qed.

Lemma norm_index_in_range n i :
  - Z.of_nat n <= i < Z.of_nat n -> exists k, norm_index n i = Ok k.
Proof.
  intros Hi. unfold norm_index.
  destruct ((0 <=? i) && (i <? Z.of_nat n)) eqn:Hin; [by eexists|].
  destruct ((- Z.of_nat n <=? i) && (i <? 0)) eqn:Hneg; [by eexists|].
  apply andb_false_iff in Hin, Hneg. lia.
Qed.

(** One assignment keeps the shape of the matrix. *)
Lemma set_row_shape cols mat i vec mat' :
  set_row cols mat i vec = Ok mat' ->
  length mat' = length mat
  /\ (Forall (fun r => length r = cols) mat ->
      Forall (fun r => length r = cols) mat').
Proof.
  unfold set_row. unfold_result.
  destruct (norm_index (length mat) i) as [k|]; [|done].
  destruct (broadcast cols vec) as [row|] eqn:Hrow; [|done].
  intros [= <-]. split; [apply length_insert|].
  intros Hall. apply Forall_insert; [done|]. by eapply broadcast_length.
Qed.

Lemma assign_loop_shape lo E cols items mat mat' :
  for_each (assign lo E cols) items mat = Ok mat' ->
  length mat' = length mat
  /\ (Forall (fun r => length r = cols) mat ->
      Forall (fun r => length r = cols) mat').
Proof.
  intros Hrun.
  apply (for_each_invariant _
           (fun m => length m = length mat
                     /\ (Forall (fun r => length r = cols) mat ->
                         Forall (fun r => length r = cols) m))
           _ _ _) in Hrun; [done| |done].
  intros m item m' [Hlen Hall] Hb. unfold assign in Hb.
  destruct (lookup_vec lo E item.1); [|by injection Hb as <-].
  apply set_row_shape in Hb as [Hlen' Hall']. split; [congruence | eauto].
Qed.

(** A row to which no matched token points is left as it was. *)
Lemma assign_loop_untouched lo E cols items mat mat' k :
  for_each (assign lo E cols) items mat = Ok mat' ->
  Forall (fun item => 0 <= item.2) items ->
  (forall item, item ∈ items -> Z.to_nat item.2 = k ->
                lookup_vec lo E item.1 = None) ->
  mat' !! k = mat !! k.
Proof.
  revert mat. induction items as [|item items IH]; intros mat Hrun Hpos Hk.
  - by injection Hrun as <-.
  - apply for_each_ok_cons_inv in Hrun as (mat1 & Hb & Hrun).
    apply Forall_cons in Hpos as [Hi Hpos].
    rewrite (IH mat1 Hrun Hpos) by (intros; apply Hk; [by right | done]).
    unfold assign in Hb.
    destruct (lookup_vec lo E item.1) as [vec|] eqn:Hvec;
      [|by injection Hb as <-].
    unfold set_row in Hb. unfold_result.
    destruct (norm_index (length mat) item.2) as [k'|] eqn:Hk'; [|done].
    destruct (broadcast cols vec) as [row|]; [|done]. injection Hb as <-.
    apply norm_index_nonneg in Hk' as [-> _]; [|done].
    apply list_lookup_insert_ne. intros Heq.
    specialize (Hk item (list_elem_of_here _ _) Heq). congruence.
Qed.

(** The row of a vocabulary entry, for distinct non-negative ids. *)
Lemma assign_loop_row lo E cols items mat mat' word wid :
  for_each (assign lo E cols) items mat = Ok mat' ->
  NoDup items.*2 -> Forall (fun item => 0 <= item.2) items ->
  (word, wid) ∈ items ->
  match lookup_vec lo E word with
  | Some vec => exists row, broadcast cols vec = Ok row
                            /\ mat' !! Z.to_nat wid = Some row
  | None => mat' !! Z.to_nat wid = mat !! Z.to_nat wid
  end.
Proof.
  revert mat. induction items as [|item items IH]; intros mat Hrun Hnd Hpos Hin.
  - by apply elem_of_nil in Hin.
  - apply for_each_ok_cons_inv in Hrun as (mat1 & Hb & Hrun).
    rewrite fmap_cons in Hnd. apply NoDup_cons in Hnd as [Hfresh Hnd].
    apply Forall_cons in Hpos as [Hi Hpos].
    assert (Hrest : forall it, it ∈ items -> Z.to_nat it.2 = Z.to_nat item.2 ->
                               lookup_vec lo E it.1 = None).
    { intros it Hit Heq. exfalso. apply Hfresh.
      assert (it.2 = item.2) as <-.
      { rewrite Forall_forall in Hpos. specialize (Hpos it Hit). lia. }
      apply list_elem_of_fmap. by exists it. }
    apply elem_of_cons in Hin as [<-|Hin].
    + simpl in *. rewrite (assign_loop_untouched _ _ _ _ _ _ _ Hrun Hpos Hrest).
      unfold assign in Hb. simpl in Hb.
      destruct (lookup_vec lo E word) as [vec|]; [|by injection Hb as <-].
      unfold set_row in Hb. unfold_result.
      destruct (norm_index (length mat) wid) as [k|] eqn:Hk; [|done].
      destruct (broadcast cols vec) as [row|]; [|done]. injection Hb as <-.
      apply norm_index_nonneg in Hk as [-> Hlt]; [|done].
      exists row. split; [done|]. by apply list_lookup_insert_eq.
    + specialize (IH mat1 Hrun Hnd Hpos Hin).
      destruct (lookup_vec lo E word) as [vec|]; [done|]. rewrite IH.
      assert (wid <> item.2) as Hne.
      { intros ->. apply Hfresh. apply list_elem_of_fmap. by exists (word, item.2). }
      assert (0 <= wid) as Hwid.
      { rewrite Forall_forall in Hpos. by specialize (Hpos _ Hin). }
      unfold assign in Hb.
      destruct (lookup_vec lo E item.1) as [vec|]; [|by injection Hb as <-].
      unfold set_row in Hb. unfold_result.
      destruct (norm_index (length mat) item.2) as [k|] eqn:Hk; [|done].
      destruct (broadcast cols vec) as [row|]; [|done]. injection Hb as <-.
      apply norm_index_nonneg in Hk as [-> _]; [|done].
      apply list_lookup_insert_ne. lia.
Qed.

(** The row of a vocabulary entry in the returned matrix. *)
Lemma get_embedding_matrix_row E V es lo mat word wid :
  get_embedding_matrix E V es lo = Ok mat ->
  NoDup (Vocabulary.vocab V).*2 ->
  Forall (fun item => 0 <= item.2) (Vocabulary.vocab V) ->
  (word, wid) ∈ Vocabulary.vocab V ->
  match lookup_vec lo E word with
  | Some vec => exists row, broadcast (emb_dim E) vec = Ok row
                            /\ mat !! Z.to_nat wid = Some row
  | None => forall row, mat !! Z.to_nat wid = Some row -> row = zeros1 (emb_dim E)
  end.
Proof.
  rewrite get_embedding_matrix_unfold. unfold_result. intros Hrun Hnd Hpos Hin.
  destruct (next_iter (PyDict.values E)) as [first|] eqn:Hfirst; [|done].
  apply next_iter_values in Hfirst. rewrite Hfirst in Hrun.
  destruct (np_zeros2 _ _) as [mat0|] eqn:Hz; [|done].
  apply np_zeros2_ok in Hz as [_ ->].
  pose proof (assign_loop_row _ _ _ _ _ _ word wid Hrun Hnd Hpos Hin) as Hrow.
  destruct (lookup_vec lo E word); [done|].
  intros row Hr. rewrite Hrow in Hr.
  apply lookup_replicate in Hr as [-> _]. by rewrite Nat2Z.id.
Qed.

(** The shape of the returned matrix. *)
Lemma builder_shape E V es lo mat :
  get_embedding_matrix E V es lo = Ok mat ->
  Z.of_nat (length mat) = row_count es V
  /\ Forall (fun r => length r = emb_dim E) mat.
Proof.
  rewrite get_embedding_matrix_unfold. unfold_result. intros Hrun.
  destruct (next_iter (PyDict.values E)) as [first|] eqn:Hfirst; [|done].
  apply next_iter_values in Hfirst. rewrite Hfirst in Hrun.
  destruct (np_zeros2 _ _) as [mat0|] eqn:Hz; [|done].
  apply np_zeros2_ok in Hz as [Hr ->].
  apply assign_loop_shape in Hrun as [Hlen Hall].
  rewrite length_replicate in Hlen. split; [lia|].
  apply Hall, Forall_replicate. unfold zeros1.
  by rewrite length_replicate, Nat2Z.id.
Qed.

Lemma broadcast_returns cols vec :
  length vec = cols \/ length vec = 1%nat -> exists row, broadcast cols vec = Ok row.
Proof.
  intros [Hlen|Hlen]; [rewrite broadcast_same by done; by eexists|].
  unfold broadcast. destruct (length vec =? cols)%nat; [by eexists|].
  destruct vec as [|x [|y vec]]; [done | by eexists | done].
Qed.

Lemma assign_loop_returns lo E cols items mat :
  (forall word wid vec, (word, wid) ∈ items -> lookup_vec lo E word = Some vec ->
     - Z.of_nat (length mat) <= wid < Z.of_nat (length mat)
     /\ (length vec = cols \/ length vec = 1%nat)) ->
  exists mat', for_each (assign lo E cols) items mat = Ok mat'.
Proof.
  revert mat. induction items as [|[word wid] items IH]; intros mat Hok.
  - by eexists.
  - assert (exists mat1, assign lo E cols mat (word, wid) = Ok mat1
                         /\ length mat1 = length mat) as (mat1 & Hb & Hlen).
    { unfold assign. simpl.
      destruct (lookup_vec lo E word) as [vec|] eqn:Hvec; [|by eexists].
      destruct (Hok word wid vec (list_elem_of_here _ _) Hvec) as [Hwid Hvlen].
      destruct (norm_index_in_range _ _ Hwid) as [k Hk].
      destruct (broadcast_returns _ _ Hvlen) as [row Hrow].
      unfold set_row. unfold_result. rewrite Hk, Hrow.
      eexists. split; [done|]. apply length_insert. }
    rewrite (for_each_cons_ok _ _ _ _ _ Hb). apply IH.
    intros w i v Hin Hv. rewrite Hlen. apply (Hok w i v); [by right | done].
Qed.

(** The builder returns on a table that is not empty when the row count is
    not negative and every matched token has an id within the rows and a
    vector of the inferred dimension (or of length one). *)
Lemma get_embedding_matrix_returns E V es lo :
  E <> [] -> 0 <= row_count es V ->
  (forall word wid vec,
     (word, wid) ∈ Vocabulary.vocab V -> lookup_vec lo E word = Some vec ->
     - row_count es V <= wid < row_count es V
     /\ (length vec = emb_dim E \/ length vec = 1%nat)) ->
  exists mat, get_embedding_matrix E V es lo = Ok mat.
Proof.
  intros HE Hrows Hok. rewrite get_embedding_matrix_unfold. unfold_result.
  destruct E as [|[k0 v0] E']; [done|]. simpl next_iter. cbv iota beta.
  unfold np_zeros2.
  replace (row_count es V <? 0) with false by (symmetry; apply Z.ltb_ge; lia).
  replace (Z.of_nat (length v0) <? 0) with false
    by (symmetry; apply Z.ltb_ge; lia).
  simpl orb. cbv iota. apply assign_loop_returns.
  intros word wid vec Hin Hvec. rewrite length_replicate, Z2Nat.id by done.
  by apply (Hok word wid vec).
Qed.

End Builder.

(** ** The matrix filler *)

Section Filler.
Context `{FloatModel}.
Context (src_lex : list (Z * string)) (emb_lex : list (string * list F))
        (emb_size : Z).

Lemma insert_middle {A : Type} (l1 l2 : list A) (x y : A) :
  <[length l1 := y]> (l1 ++ x :: l2) = l1 ++ y :: l2.
Proof. rewrite insert_app_r_alt by lia. by rewrite Nat.sub_diag. Qed.

Lemma map_result_pure {X Y : Type} (f : X -> result Y) (g : X -> Y) xs :
  (forall x, x ∈ xs -> f x = Ok (g x)) -> map_result f xs = Ok (g <$> xs).
Proof.
  induction xs as [|x xs IH]; intros Hfg; simpl; [done|].
  rewrite Hfg by left. unfold_result. rewrite IH; [done|].
  intros y Hy. apply Hfg. by right.
Qed.

(** One cell: the zeros at position [length seen] of row [length pre] are
    replaced by the value of the cell. *)
Lemma fill_cell_step (pre post : list (list (list F)))
    (seen after : list (list F)) (w : Z) :
  fill_cell src_lex emb_lex emb_size (length pre)
    (pre ++ (seen ++ zeros1 (Z.to_nat emb_size) :: after) :: post)
    (length seen, w)
  = cell ← cell_result src_lex emb_lex emb_size w;
    Ok (pre ++ (seen ++ cell :: after) :: post).
Proof.
  unfold fill_cell, cell_result. unfold_result.
  destruct (0 <? w); [|done].
  destruct (PyDict.get _ emb_lex) as [w_emb|]; [|done].
  unfold set_cell. rewrite list_lookup_middle by done.
  replace (length seen <? _)%nat with true
    by (symmetry; apply Nat.ltb_lt; rewrite length_app; simpl; lia).
  unfold_result. destruct (broadcast _ w_emb) as [cell|e]; [|done].
  by rewrite !insert_middle.
Qed.

(** The loop over the cells of row [i]: the cells already visited are
    [seen], the cells ahead still hold zeros. *)
Lemma fill_row_loop (pre post : list (list (list F))) (seen : list (list F))
    (rest : list Z) (i : nat) :
  i = length pre ->
  for_each (fill_cell src_lex emb_lex emb_size i)
    (enumerate_from (length seen) rest)
    (pre ++ (seen ++ replicate (length rest) (zeros1 (Z.to_nat emb_size))) :: post)
  = row ← map_result (cell_result src_lex emb_lex emb_size) rest;
    Ok (pre ++ (seen ++ row) :: post).
Proof.
  intros ->. revert seen. induction rest as [|w rest IH]; intros seen; [done|].
  cbn [length replicate enumerate_from for_each map_result].
  rewrite fill_cell_step. unfold_result.
  destruct (cell_result src_lex emb_lex emb_size w) as [cell|e]; [|done].
  specialize (IH (seen ++ [cell])).
  rewrite length_app, Nat.add_1_r in IH. rewrite <- !app_assoc in IH.
  cbn [app] in IH. rewrite IH.
  destruct (map_result _ rest); [|done]. by rewrite <- app_assoc.
Qed.

(** The loop over the rows. *)
Lemma fill_rows_loop (seen : list (list (list F))) (rest : list (list Z))
    (cols : nat) :
  Forall (fun sen => length sen = cols) rest ->
  for_each (fun emb_mat '(i, sen) =>
              for_each (fill_cell src_lex emb_lex emb_size i) (enumerate sen) emb_mat)
    (enumerate_from (length seen) rest)
    (seen ++ replicate (length rest)
                       (replicate cols (zeros1 (Z.to_nat emb_size))))
  = rows ← map_result (map_result (cell_result src_lex emb_lex emb_size)) rest;
    Ok (seen ++ rows).
Proof.
  intros Hrect. revert seen.
  induction Hrect as [|sen rest Hlen _ IH]; intros seen.
  - simpl. by rewrite !app_nil_r.
  - cbn [length replicate enumerate_from for_each map_result].
    unfold enumerate.
    pose proof (fill_row_loop seen
                  (replicate (length rest)
                             (replicate cols (zeros1 (Z.to_nat emb_size))))
                  [] sen (length seen) eq_refl) as Hrow.
    cbn [length app] in Hrow. rewrite Hlen in Hrow. unfold_result.
    rewrite Hrow.
    destruct (map_result (cell_result src_lex emb_lex emb_size) sen)
      as [row|e]; [|done].
    specialize (IH (seen ++ [row])).
    rewrite length_app, Nat.add_1_r in IH. rewrite <- !app_assoc in IH.
    cbn [app] in IH. unfold enumerate in IH. unfold_result. rewrite IH.
    destruct (map_result _ rest); [|done]. by rewrite <- app_assoc.
Qed.

(** [fill_embedding_mat] computes every cell on its own, row by row. *)
Lemma fill_embedding_mat_cellwise (src_mat : list (list Z)) :
  Forall (fun sen => length sen = shape1 src_mat) src_mat ->
  fill_embedding_mat src_mat src_lex emb_lex emb_size
  = if emb_size <? 0 then Raise ValueError
    else map_result (map_result (cell_result src_lex emb_lex emb_size)) src_mat.
Proof.
  intros Hrect. unfold fill_embedding_mat, np_zeros3.
  replace (Z.of_nat (shape0 src_mat) <? 0) with false
    by (symmetry; apply Z.ltb_ge; lia).
  replace (Z.of_nat (shape1 src_mat) <? 0) with false
    by (symmetry; apply Z.ltb_ge; lia).
  simpl orb. destruct (emb_size <? 0); [done|].
  unfold_result. rewrite !Nat2Z.id. unfold shape0.
  pose proof (fill_rows_loop [] src_mat (shape1 src_mat) Hrect) as Hloop.
  cbn [length app] in Hloop. unfold enumerate at 2. rewrite Hloop. unfold_result.
  by destruct (map_result _ src_mat).
Qed.

Lemma get_Some_elem_of {K V : Type} `{EqDecision K} (k : K) (v : V) d :
  PyDict.get k d = Some v -> (k, v) ∈ d.
Proof.
  induction d as [|[k' v'] d IH]; simpl; [done|].
  case_decide; [intros [= ->]; subst; left | right; auto].
Qed.

Lemma fill_embedding_mat_value (src_mat : list (list Z)) :
  0 <= emb_size ->
  Forall (fun sen => length sen = shape1 src_mat) src_mat ->
  Forall (fun kv => Z.of_nat (length kv.2) = emb_size) emb_lex ->
  fill_embedding_mat src_mat src_lex emb_lex emb_size
  = Ok ((fun sen : list Z => cell_value src_lex emb_lex emb_size <$> sen)
          <$> src_mat).
Proof.
  intros Hsize Hrect Hvecs. rewrite fill_embedding_mat_cellwise by done.
  replace (emb_size <? 0) with false by (symmetry; apply Z.ltb_ge; lia).
  apply map_result_pure. intros sen _. apply map_result_pure. intros w _.
  unfold cell_result, cell_value. destruct (0 <? w); [|done].
  destruct (PyDict.get _ emb_lex) as [w_emb|] eqn:Hget; [|done].
  apply broadcast_same. apply get_Some_elem_of in Hget.
  rewrite Forall_forall in Hvecs. specialize (Hvecs _ Hget). simpl in Hvecs. lia.
Qed.

Lemma cell_value_length w :
  0 <= emb_size ->
  Forall (fun kv => Z.of_nat (length kv.2) = emb_size) emb_lex ->
  Z.of_nat (length (cell_value src_lex emb_lex emb_size w)) = emb_size.
Proof.
  intros Hsize Hvecs. unfold cell_value, zeros1.
  destruct (0 <? w); [|rewrite length_replicate; lia].
  destruct (PyDict.get _ emb_lex) as [w_emb|] eqn:Hget;
    [|rewrite length_replicate; lia].
  apply get_Some_elem_of in Hget.
  rewrite Forall_forall in Hvecs. by specialize (Hvecs _ Hget).
Qed.

End Filler.

(** ** The simple loader *)

Section SimpleLoader.
Context `{FloatModel}.
Implicit Types (d : list (string * list F)) (line : string) (fp : list string).

Lemma lef_line_eq d line :
  load_embedding_file_line d line
  = match split line with
    | [] => Raise IndexError
    | word :: rest => vec ← array_of_floats rest; Ok (PyDict.setitem word vec d)
    end.
Proof. unfold load_embedding_file_line. by destruct (split line). Qed.

Lemma lef_line_keeps_key d d' line k :
  load_embedding_file_line d line = Ok d' ->
  is_Some (PyDict.get k d) -> is_Some (PyDict.get k d').
Proof.
  rewrite lef_line_eq. destruct (split line) as [|word rest]; [done|].
  unfold_result. destruct (array_of_floats rest); [|done].
  intros [= <-]. apply get_setitem_is_Some.
Qed.

(** Lines with another first field leave the entry of [k] as it is. *)
Lemma lef_loop_other_keys fp d d' k :
  for_each load_embedding_file_line fp d = Ok d' ->
  Forall (fun l => head (split l) <> Some k) fp ->
  PyDict.get k d' = PyDict.get k d.
Proof.
  revert d. induction fp as [|line fp IH]; intros d Hrun Hother.
  - by injection Hrun as <-.
  - apply for_each_ok_cons_inv in Hrun as (d1 & Hline & Hrun).
    apply Forall_cons in Hother as [Hl Hother].
    rewrite (IH d1 Hrun Hother). rewrite lef_line_eq in Hline.
    destruct (split line) as [|word rest]; [done|]. unfold_result.
    destruct (array_of_floats rest); [|done]. injection Hline as <-.
    apply get_setitem_ne. intros ->. by apply Hl.
Qed.

(** What a line of the file leaves in the returned dictionary. *)
Lemma lef_line_entry pre post line d :
  load_embedding_file (pre ++ line :: post) = Ok d ->
  exists word rest vec,
    split line = word :: rest /\ array_of_floats rest = Ok vec
    /\ is_Some (PyDict.get word d)
    /\ (Forall (fun l => head (split l) <> Some word) post ->
        PyDict.get word d = Some vec).
Proof.
  unfold load_embedding_file. intros Hrun.
  apply for_each_ok_app_inv in Hrun as (d1 & _ & Hrun).
  apply for_each_ok_cons_inv in Hrun as (d2 & Hline & Hrun).
  rewrite lef_line_eq in Hline.
  destruct (split line) as [|word rest] eqn:Hsplit; [done|]. unfold_result.
  destruct (array_of_floats rest) as [vec|] eqn:Hvec; [|done].
  injection Hline as <-.
  exists word, rest, vec. split; [done|]. split; [done|]. split.
  - eapply (for_each_invariant _ (fun s => is_Some (PyDict.get word s)));
      [| |exact Hrun].
    + intros s x s' Hs Hb. by eapply lef_line_keeps_key.
    + rewrite get_setitem_eq. by eexists.
  - intros Hother. rewrite (lef_loop_other_keys _ _ _ _ Hrun Hother).
    apply get_setitem_eq.
Qed.

Lemma array_of_floats_ok fields :
  Forall (fun f => is_Some (float_of_str f)) fields <->
  exists v, array_of_floats fields = Ok v.
Proof.
  unfold array_of_floats. rewrite <- map_result_ok.
  apply Forall_proper; [|done]. intros f.
  destruct (float_of_str f); split;
    [by eexists | by eexists | by intros [] | by intros []].
Qed.

(** The loader returns on a file whose lines all have a token followed by
    numbers. *)
Lemma load_embedding_file_returns fp :
  Forall (fun l => exists word rest,
            split l = word :: rest
            /\ Forall (fun f => is_Some (float_of_str f)) rest) fp ->
  exists d, load_embedding_file fp = Ok d.
Proof.
  intros Hfp. unfold load_embedding_file.
  eapply for_each_returns; [|exact Hfp].
  intros d line (word & rest & Hsplit & Hnum). rewrite lef_line_eq, Hsplit.
  apply array_of_floats_ok in Hnum as [vec ->]. by eexists.
Qed.

End SimpleLoader.

(** C3. [load_word_embeddings] skips every line with fewer than five
    whitespace-delimited fields: removing such a line from the file changes
    neither the returned table nor the returned dimension.  The line
    ["a 1.0 2.0 3.0 4.0"] gives the entry ["a"] with the vector
    [1.0, 2.0, 3.0, 4.0] and the dimension 4, also next to lines of three
    fields, which are dropped. *)
Theorem load_word_embeddings_min_fields :
  (forall (FM : FloatModel) (pre post : list string) (line : string)
          (vocab : option (list string)),
      (length (split line) < 5)%nat ->
      load_word_embeddings (pre ++ line :: post) vocab
      = load_word_embeddings (pre ++ post) vocab)
  /\ load_word_embeddings ["a 1.0 2.0 3.0 4.0" +:+ nl] None
     = Ok ([("a", [1; 2; 3; 4]%Q)], Some 4%nat)
  /\ load_word_embeddings
       ["b 1.0 2.0" +:+ nl; "a 1.0 2.0 3.0 4.0" +:+ nl; "c 0.5 0.5" +:+ nl] None
     = Ok ([("a", [1; 2; 3; 4]%Q)], Some 4%nat).
Proof.
  split; [|split; reflexivity].
  intros FM pre post line vocab Hlen. unfold load_word_embeddings.
  rewrite !for_each_app. unfold_result.
  destruct (for_each (load_word_embeddings_line vocab) pre ([], None))
    as [st|e]; [|done].
  simpl. by rewrite lwe_line_short.
Qed.

Lemma load_word_embeddings_min_fields_witness :
  load_word_embeddings (["a 1 2 3 4"] ++ "400000 300" :: ["b 5 6 7 8"]) None
  = load_word_embeddings (["a 1 2 3 4"] ++ ["b 5 6 7 8"]) None.
Proof.
  apply (proj1 load_word_embeddings_min_fields decimal_floats).
  vm_compute. lia.
Defined.

(** C4. A line of [load_word_embeddings] that begins with a literal space
    and has at least five fields leaves an entry for the token [" "] in the
    returned table, whether or not a filter is given and whatever the
    filter holds; and the loader returns on every file whose converted
    fields are numbers. *)
Theorem load_word_embeddings_whitespace_token :
  forall (FM : FloatModel) (fp : list string) (vocab : option (list string))
         (line : string),
    line ∈ fp -> leading_space line = true ->
    (5 <= length (split line))%nat ->
    (forall d size, load_word_embeddings fp vocab = Ok (d, size) ->
                    is_Some (PyDict.get " " d))
    /\ (numeric_file vocab fp ->
        exists d size, load_word_embeddings fp vocab = Ok (d, size)
                       /\ is_Some (PyDict.get " " d)).
Proof.
  intros FM fp vocab line Hin Hsp Hlen. split.
  - intros d size Hrun. by eapply lwe_whitespace_entry.
  - intros Hnum.
    destruct (load_word_embeddings_returns fp vocab Hnum) as [[d size] Hrun].
    exists d, size. split; [done|]. by eapply lwe_whitespace_entry.
Qed.

Lemma load_word_embeddings_whitespace_token_witness :
  exists d size,
    load_word_embeddings ["a 1 2 3 4"; " 1 2 3 4 5"; "b 5 6 7 8"] (Some [])
    = Ok (d, size) /\ is_Some (PyDict.get " " d).
Proof.
  apply (load_word_embeddings_whitespace_token decimal_floats
           ["a 1 2 3 4"; " 1 2 3 4 5"; "b 5 6 7 8"] (Some []) " 1 2 3 4 5").
  - apply list_elem_of_In. simpl. tauto.
  - reflexivity.
  - vm_compute. lia.
  - repeat constructor; simpl; eauto.
Defined.

(** C5, as the claim states it, fails: a file whose only accepted line
    begins with a space has that line in the table, yet no dimension is
    recorded from it. *)
Lemma load_word_embeddings_size_counterexample :
  load_word_embeddings [" 1 2 3 4 5" +:+ nl] None
  = Ok ([(" ", [1; 2; 3; 4; 5]%Q)], None)
  /\ load_word_embeddings [" 1 2 3 4 5" +:+ nl; "a 1 2 3 4 5 6" +:+ nl] None
     = Ok ([(" ", [1; 2; 3; 4; 5]%Q); ("a", [1; 2; 3; 4; 5; 6]%Q)], Some 6%nat).
Proof. split; reflexivity. Qed.

(** C5, amended. The dimension returned by [load_word_embeddings] is the
    number of fields after the token on the first line stored under its own
    token (at least five fields, no leading space, passing the filter), and
    [None] when there is no such line; lines beginning with a space never
    set it.  No later line is compared with it: the loader returns on every
    file whose converted fields are numbers, whatever the lengths of the
    vectors. *)
Theorem load_word_embeddings_size :
  forall (FM : FloatModel) (fp : list string) (vocab : option (list string)),
    (forall d size, load_word_embeddings fp vocab = Ok (d, size) ->
       size = (fun l => length (tail (split l)))
                <$> List.find (stored_under_token vocab) fp)
    /\ (numeric_file vocab fp ->
        exists d, load_word_embeddings fp vocab
                  = Ok (d, (fun l => length (tail (split l)))
                             <$> List.find (stored_under_token vocab) fp)).
Proof.
  intros FM fp vocab. split.
  - intros d size Hrun. by apply lwe_loop_size in Hrun.
  - intros Hnum.
    destruct (load_word_embeddings_returns fp vocab Hnum) as [[d size] Hrun].
    exists d. rewrite Hrun. by apply lwe_loop_size in Hrun as ->.
Qed.

Lemma load_word_embeddings_size_witness :
  exists d, load_word_embeddings
              [" 9 9 9 9 9"; "a 1 2 3 4"; "b 1 2 3 4 5 6"] None
            = Ok (d, Some 4%nat).
Proof.
  apply (proj2 (load_word_embeddings_size decimal_floats
                  [" 9 9 9 9 9"; "a 1 2 3 4"; "b 1 2 3 4 5 6"] None)).
  repeat constructor; simpl; eauto.
Defined.

(** C1, as the claim states it, fails: no row of the result is [[2,2]].
    Neither ["dog"] nor its lowercase is a key of the table (the key is
    ["DOG"]), so nothing is written for it; the matrix has two rows by
    default, and the row 2 of a three-row matrix is zeros. *)
Lemma get_embedding_matrix_fallback_counterexample :
  get_embedding_matrix example_table example_vocab None false
  = Ok [[0; 0]; [1; 1]]%Q
  /\ get_embedding_matrix example_table example_vocab (Some 3) false
     = Ok [[0; 0]; [1; 1]; [0; 0]]%Q
  /\ PyDict.get "dog" example_table = None
  /\ PyDict.get (str_lower "dog") example_table = None.
Proof. repeat split; reflexivity. Qed.

(** C1, amended. With [lowercase_only=False], [get_embedding_matrix] looks
    up the exact token first and the lowercased token only when the exact
    one is absent; for distinct non-negative ids the row of the token holds
    the vector found, or zeros when both lookups fail.  On the example the
    result has row 1 = [[1,1]] and no row [[2,2]]: ["dog"] matches no key.
    The fallback matches an upper-case vocabulary token to a lower-case
    key: vocabulary [{"cat":1, "DOG":2}] and table
    [{"cat":[1,1], "dog":[2,2]}] with three rows give row 2 = [[2,2]]. *)
Theorem get_embedding_matrix_fallback :
  (forall (FM : FloatModel) (E : list (string * list F)) (V : Vocabulary.t)
          (es : option Z) (mat : list (list F)) (word : string) (wid : Z),
      get_embedding_matrix E V es false = Ok mat ->
      NoDup (Vocabulary.vocab V).*2 ->
      Forall (fun item => 0 <= item.2) (Vocabulary.vocab V) ->
      (word, wid) ∈ Vocabulary.vocab V ->
      row_holds E mat wid
        match PyDict.get word E with
        | Some vec => Some vec
        | None => PyDict.get (str_lower word) E
        end)
  /\ get_embedding_matrix example_table example_vocab None false
     = Ok [[0; 0]; [1; 1]]%Q
  /\ get_embedding_matrix example_table example_vocab (Some 3) false
     = Ok [[0; 0]; [1; 1]; [0; 0]]%Q
  /\ get_embedding_matrix [("cat", [1; 1]%Q); ("dog", [2; 2]%Q)]
       {| Vocabulary.vocab := [("cat", 1); ("DOG", 2)] |} (Some 3) false
     = Ok [[0; 0]; [1; 1]; [2; 2]]%Q.
Proof.
  split; [|repeat split; reflexivity].
  intros FM E V es mat word wid Hrun Hnd Hpos Hin.
  exact (get_embedding_matrix_row E V es false mat word wid Hrun Hnd Hpos Hin).
Qed.

Lemma get_embedding_matrix_fallback_witness :
  row_holds [("cat", [1; 1]%Q); ("dog", [2; 2]%Q)]
    [[0; 0]; [1; 1]; [2; 2]]%Q 2 (Some [2; 2]%Q).
Proof.
  apply (proj1 get_embedding_matrix_fallback decimal_floats
           [("cat", [1; 1]%Q); ("dog", [2; 2]%Q)]
           {| Vocabulary.vocab := [("cat", 1); ("DOG", 2)] |}
           (Some 3) _ "DOG" 2).
  - reflexivity.
  - simpl. repeat constructor; rewrite ?elem_of_cons, ?elem_of_nil; lia.
  - repeat constructor; simpl; lia.
  - apply list_elem_of_In. simpl. tauto.
Defined.

(** C2. With [lowercase_only=True], [get_embedding_matrix] looks up the
    lowercased token only, against the keys of the table as they are: for
    distinct non-negative ids the row of a token holds the vector stored
    under its lowercased form, or zeros when there is none, even if the
    token itself is a key.  On the example, ["cat"] lowercased is the key
    ["cat"] and row 1 = [[1,1]]; ["dog"] lowercased is not the key ["DOG"]
    and nothing is written for it: every other row is zeros, row 2 of a
    three-row matrix included. *)
Theorem get_embedding_matrix_lowercase_only :
  (forall (FM : FloatModel) (E : list (string * list F)) (V : Vocabulary.t)
          (es : option Z) (mat : list (list F)) (word : string) (wid : Z),
      get_embedding_matrix E V es true = Ok mat ->
      NoDup (Vocabulary.vocab V).*2 ->
      Forall (fun item => 0 <= item.2) (Vocabulary.vocab V) ->
      (word, wid) ∈ Vocabulary.vocab V ->
      row_holds E mat wid (PyDict.get (str_lower word) E))
  /\ PyDict.get (str_lower "cat") example_table = Some [1; 1]%Q
  /\ PyDict.get (str_lower "dog") example_table = None
  /\ get_embedding_matrix example_table example_vocab None true
     = Ok [[0; 0]; [1; 1]]%Q
  /\ get_embedding_matrix example_table example_vocab (Some 3) true
     = Ok [[0; 0]; [1; 1]; [0; 0]]%Q
  /\ get_embedding_matrix [("DOG", [2; 2]%Q)]
       {| Vocabulary.vocab := [("DOG", 0)] |} None true
     = Ok [[0; 0]]%Q.
Proof.
  split; [|repeat split; reflexivity].
  intros FM E V es mat word wid Hrun Hnd Hpos Hin.
  exact (get_embedding_matrix_row E V es true mat word wid Hrun Hnd Hpos Hin).
Qed.

Lemma get_embedding_matrix_lowercase_only_witness :
  row_holds example_table [[0; 0]; [1; 1]; [0; 0]]%Q 2 None.
Proof.
  apply (proj1 get_embedding_matrix_lowercase_only decimal_floats
           example_table example_vocab (Some 3) _ "dog" 2).
  - reflexivity.
  - simpl. repeat constructor; rewrite ?elem_of_cons, ?elem_of_nil; lia.
  - repeat constructor; simpl; lia.
  - apply list_elem_of_In. simpl. tauto.
Defined.

(** C6. On an empty embedding table [get_embedding_matrix] raises (the
    [StopIteration] of [next] on the empty iterator) and returns no matrix,
    whatever the other arguments. *)
Theorem get_embedding_matrix_empty_table :
  forall (FM : FloatModel) (V : Vocabulary.t) (es : option Z) (lo : bool),
    get_embedding_matrix [] V es lo = Raise StopIteration.
Proof. reflexivity. Qed.

(** C8, as the claim states it, fails: an explicit row count of 0 is given,
    and the matrix has as many rows as the vocabulary. *)
Lemma get_embedding_matrix_shape_counterexample :
  exists mat,
    get_embedding_matrix [("x", [1]%Q)] {| Vocabulary.vocab := [("cat", 0)] |}
      (Some 0) false = Ok mat
    /\ Z.of_nat (length mat) <> 0.
Proof. exists [[0]]%Q. split; [reflexivity | done]. Qed.

(** C8, amended. The matrix returned by [get_embedding_matrix] has as many
    rows as the explicit row count when one is given and is not zero, and
    as many as the vocabulary has entries otherwise (a row count of zero
    counts as not given); every row has the inferred embedding dimension.
    The builder returns whenever the table is not empty, the row count is
    not negative, and every matched token has an id within the rows and a
    vector of that dimension or of length one. *)
Theorem get_embedding_matrix_shape :
  forall (FM : FloatModel) (E : list (string * list F)) (V : Vocabulary.t)
         (es : option Z) (lo : bool),
    let rows := match es with
                | Some n => if n =? 0 then Z.of_nat (Vocabulary.len V) else n
                | None => Z.of_nat (Vocabulary.len V)
                end in
    (forall mat, get_embedding_matrix E V es lo = Ok mat ->
       Z.of_nat (length mat) = rows
       /\ Forall (fun r => length r = emb_dim E) mat)
    /\ (E <> [] -> 0 <= rows ->
        (forall word wid vec,
           (word, wid) ∈ Vocabulary.vocab V -> lookup_vec lo E word = Some vec ->
           - rows <= wid < rows
           /\ (length vec = emb_dim E \/ length vec = 1%nat)) ->
        exists mat, get_embedding_matrix E V es lo = Ok mat).
Proof.
  intros FM E V es lo rows.
  assert (rows = row_count es V) as Hrows.
  { unfold rows, row_count, truthy. destruct es as [n|]; [|done].
    by destruct (n =? 0). }
  rewrite Hrows. split.
  - intros mat Hrun. by apply builder_shape in Hrun.
  - apply get_embedding_matrix_returns.
Qed.

Lemma get_embedding_matrix_shape_witness :
  Z.of_nat (length [[0; 0]; [1; 1]; [0; 0]; [0; 0]; [0; 0]]%Q) = 5
  /\ Forall (fun r : list Q => length r = 2%nat)
       [[0; 0]; [1; 1]; [0; 0]; [0; 0]; [0; 0]]%Q.
Proof.
  apply (proj1 (get_embedding_matrix_shape decimal_floats
                  example_table example_vocab (Some 5) false)).
  reflexivity.
Defined.

(** C7. When every vector of the embedding lexicon has [emb_size] entries,
    [fill_embedding_mat] returns a tensor of shape (sentences, positions,
    [emb_size]) in which the cell of an id [<= 0] is zeros, the cell of a
    positive id whose lowercased source token is not in the embedding
    lexicon is zeros, and the cell of a positive id whose lowercased source
    token is in the lexicon is that token's vector. *)
Theorem fill_embedding_mat_cells :
  forall (FM : FloatModel) (src_mat : list (list Z)) (src_lex : list (Z * string))
         (emb_lex : list (string * list F)) (emb_size : Z),
    0 <= emb_size ->
    Forall (fun sen => length sen = shape1 src_mat) src_mat ->
    Forall (fun kv => Z.of_nat (length kv.2) = emb_size) emb_lex ->
    exists emb_mat,
      fill_embedding_mat src_mat src_lex emb_lex emb_size = Ok emb_mat
      /\ length emb_mat = shape0 src_mat
      /\ Forall (fun row =>
                   length row = shape1 src_mat
                   /\ Forall (fun cell => Z.of_nat (length cell) = emb_size) row)
                emb_mat
      /\ forall i j sen w,
           src_mat !! i = Some sen -> sen !! j = Some w ->
           exists row cell,
             emb_mat !! i = Some row /\ row !! j = Some cell
             /\ (w <= 0 -> cell = zeros1 (Z.to_nat emb_size))
             /\ (0 < w ->
                 PyDict.get (str_lower (str_of_get (PyDict.get w src_lex))) emb_lex
                 = None ->
                 cell = zeros1 (Z.to_nat emb_size))
             /\ (forall w_emb,
                   0 < w ->
                   PyDict.get (str_lower (str_of_get (PyDict.get w src_lex))) emb_lex
                   = Some w_emb ->
                   cell = w_emb).
Proof.
  intros FM src_mat src_lex emb_lex emb_size Hsize Hrect Hvecs.
  eexists. split; [by apply fill_embedding_mat_value|].
  split; [by rewrite length_fmap|]. split.
  - apply Forall_fmap. eapply Forall_impl; [exact Hrect|].
    intros sen Hlen. simpl. split; [by rewrite length_fmap|].
    apply Forall_fmap, Forall_forall. intros w _. simpl.
    by apply cell_value_length.
  - intros i j sen w Hi Hj.
    exists (cell_value src_lex emb_lex emb_size <$> sen),
           (cell_value src_lex emb_lex emb_size w).
    rewrite !list_lookup_fmap, Hi, Hj. simpl. split; [done|]. split; [done|].
    unfold cell_value. repeat split.
    + intros Hw. by replace (0 <? w) with false by (symmetry; apply Z.ltb_ge; lia).
    + intros Hw ->. by destruct (0 <? w).
    + intros w_emb Hw ->. by replace (0 <? w) with true
        by (symmetry; apply Z.ltb_lt; lia).
Qed.

Lemma fill_embedding_mat_cells_witness :
  exists emb_mat,
    fill_embedding_mat [[1; 0; 7]; [2; -1; 3]]
      [(1, "Cat"); (2, "dog"); (3, "emu")]
      [("cat", [1; 1]%Q); ("dog", [2; 2]%Q)] 2
    = Ok emb_mat
    /\ emb_mat = [[[1; 1]; [0; 0]; [0; 0]]; [[2; 2]; [0; 0]; [0; 0]]]%Q.
Proof.
  destruct (fill_embedding_mat_cells decimal_floats
              [[1; 0; 7]; [2; -1; 3]] [(1, "Cat"); (2, "dog"); (3, "emu")]
              [("cat", [1; 1]%Q); ("dog", [2; 2]%Q)] 2)
    as (emb_mat & Hrun & _).
  - lia.
  - repeat constructor.
  - repeat constructor.
  - exists emb_mat. split; [exact Hrun|].
    vm_compute in Hrun. by injection Hrun as <-.
Defined.

(** C9, as the claim states it, fails: of two lines with the same token the
    vector of the first is not in the returned dictionary, and a line
    without any field makes the loader raise. *)
Lemma load_embedding_file_counterexample :
  load_embedding_file ["a 1.0 2.0" +:+ nl; "a 3.0 4.0" +:+ nl]
  = Ok [("a", [3; 4]%Q)]
  /\ load_embedding_file ["a 1.0 2.0" +:+ nl; nl] = Raise IndexError.
Proof. split; reflexivity. Qed.

(** C9, amended. [load_embedding_file] applies no token filter, no
    minimum-field rule and no whitespace-token special case.  For every
    line of a file on which it returns, the first whitespace-delimited
    field is a key of the returned dictionary, and the remaining fields,
    converted to floats, are its vector unless a later line has the same
    first field (the later line replaces it).  It returns on every file
    whose lines all have a first field followed by numbers. *)
Theorem load_embedding_file_lines :
  forall (FM : FloatModel) (pre post : list string) (line : string),
    (forall d, load_embedding_file (pre ++ line :: post) = Ok d ->
       exists word rest vec,
         split line = word :: rest /\ array_of_floats rest = Ok vec
         /\ is_Some (PyDict.get word d)
         /\ (Forall (fun l => head (split l) <> Some word) post ->
             PyDict.get word d = Some vec))
    /\ (Forall (fun l => exists word rest,
                  split l = word :: rest
                  /\ Forall (fun f => is_Some (float_of_str f)) rest)
               (pre ++ line :: post) ->
        exists d, load_embedding_file (pre ++ line :: post) = Ok d).
Proof.
  intros FM pre post line. split.
  - intros d. apply lef_line_entry.
  - apply load_embedding_file_returns.
Qed.

Lemma load_embedding_file_lines_witness :
  exists word rest vec,
    split " 7 8" = word :: rest /\ array_of_floats rest = Ok vec
    /\ is_Some (PyDict.get word [("a", [1; 2]%Q); ("7", [8]%Q); ("b", [3]%Q)])
    /\ (Forall (fun l => head (split l) <> Some word) ["b 3"] ->
        PyDict.get word [("a", [1; 2]%Q); ("7", [8]%Q); ("b", [3]%Q)]
        = Some vec).
Proof.
  apply (proj1 (load_embedding_file_lines decimal_floats
                  ["a 1 2"] ["b 3"] " 7 8")).
  reflexivity.
Defined.

(** C10. In [fill_embedding_mat] a positive id that is not a key of the
    source lexicon resolves to the string ["none"], the lowercased name of
    the missing-key value; its cell holds the vector stored under the key
    ["none"] of the embedding lexicon when there is one, and zeros
    otherwise. *)
Theorem fill_embedding_mat_missing_id :
  forall (FM : FloatModel) (src_mat : list (list Z)) (src_lex : list (Z * string))
         (emb_lex : list (string * list F)) (emb_size : Z)
         (i j : nat) (sen : list Z) (w : Z),
    0 <= emb_size ->
    Forall (fun sen => length sen = shape1 src_mat) src_mat ->
    Forall (fun kv => Z.of_nat (length kv.2) = emb_size) emb_lex ->
    src_mat !! i = Some sen -> sen !! j = Some w ->
    0 < w -> PyDict.get w src_lex = None ->
    str_lower (str_of_get (PyDict.get w src_lex)) = "none"
    /\ exists emb_mat row,
         fill_embedding_mat src_mat src_lex emb_lex emb_size = Ok emb_mat
         /\ emb_mat !! i = Some row
         /\ row !! j = Some match PyDict.get "none" emb_lex with
                             | Some w_emb => w_emb
                             | None => zeros1 (Z.to_nat emb_size)
                             end.
Proof.
  intros FM src_mat src_lex emb_lex emb_size i j sen w
         Hsize Hrect Hvecs Hi Hj Hw Hmiss.
  rewrite Hmiss. split; [reflexivity|].
  eexists. exists (cell_value src_lex emb_lex emb_size <$> sen).
  split; [by apply fill_embedding_mat_value|].
  rewrite !list_lookup_fmap, Hi, Hj. simpl. split; [done|].
  unfold cell_value. rewrite Hmiss.
  by replace (0 <? w) with true by (symmetry; apply Z.ltb_lt; lia).
Qed.

Lemma fill_embedding_mat_missing_id_witness :
  str_lower (str_of_get (PyDict.get 7 [(1, "Cat")])) = "none"
  /\ exists emb_mat row,
       fill_embedding_mat [[1; 7]] [(1, "Cat")]
         [("cat", [1; 1]%Q); ("none", [9; 9]%Q)] 2 = Ok emb_mat
       /\ emb_mat !! 0%nat = Some row
       /\ row !! 1%nat = Some [9; 9]%Q.
Proof.
  apply (fill_embedding_mat_missing_id decimal_floats
           [[1; 7]] [(1, "Cat")] [("cat", [1; 1]%Q); ("none", [9; 9]%Q)] 2
           0%nat 1%nat [1; 7] 7).
  - lia.
  - repeat constructor.
  - repeat constructor.
  - reflexivity.
  - reflexivity.
  - lia.
  - reflexivity.
Defined.

(** * Further properties of the loaders and builders *)

(** ** [load_word_embeddings]: keys, values and failures *)

Section LoaderEntries.
Context `{FloatModel}.
Implicit Types (vocab : option (list string)) (line : string) (fp : list string)
               (d : list (string * list F)).

Lemma for_each_raise_inv {S X : Type} (body : S -> X -> result S) xs s e :
  for_each body xs s = Raise e ->
  exists pre x post s', xs = pre ++ x :: post
                        /\ for_each body pre s = Ok s' /\ body s' x = Raise e.
Proof.
  revert s. induction xs as [|x xs IH]; intros s; simpl; [done|].
  unfold_result. destruct (body s x) as [s1|e1] eqn:Hb.
  - intros Hrun. destruct (IH s1 Hrun) as (pre & y & post & s' & -> & Hpre & Hy).
    exists (x :: pre), y, post, s'. split; [done|]. split; [|done].
    simpl. unfold_result. by rewrite Hb.
  - intros [= ->]. exists [], x, xs, s. by repeat split.
Qed.

Lemma for_each_ext_in {S X : Type} (f g : S -> X -> result S) xs s :
  (forall s x, x ∈ xs -> f s x = g s x) -> for_each f xs s = for_each g xs s.
Proof.
  revert s. induction xs as [|x xs IH]; intros s Hfg; simpl; [done|].
  rewrite Hfg by left. unfold_result. destruct (g s x); [|done].
  apply IH. intros s' y Hy. apply Hfg. by right.
Qed.

Lemma asarray_float32_raise fields e :
  asarray_float32 fields = Raise e -> e = ValueError.
Proof.
  unfold asarray_float32. induction fields as [|f fields IH]; simpl; [done|].
  unfold_result. destruct (float32_of_str f); [|by intros [= <-]].
  destruct (map_result _ fields) as [v|e']; [done|].
  intros [= <-]. by apply IH.
Qed.

Lemma asarray_float32_length fields v :
  asarray_float32 fields = Ok v -> length v = length fields.
Proof.
  unfold asarray_float32. revert v.
  induction fields as [|f fields IH]; intros v; simpl.
  - by intros [= <-].
  - unfold_result. destruct (float32_of_str f); [|done].
    destruct (map_result _ fields) as [v'|]; [|done].
    intros [= <-]. simpl. f_equal. by apply IH.
Qed.

(** One line in terms of the key it writes and the fields it converts. *)
Lemma lwe_line_cases vocab d size line :
  load_word_embeddings_line vocab (d, size) line
  = match written_key vocab line with
    | None => Ok (d, size)
    | Some k =>
        v ← asarray_float32 (converted_fields vocab line);
        Ok (PyDict.setitem k v d,
            if leading_space line then size
            else match size with
                 | None => Some (length (converted_fields vocab line))
                 | Some _ => size
                 end)
    end.
Proof.
  unfold written_key, converted_fields.
  destruct (length (split line) <? 5)%nat eqn:Hlen.
  { apply Nat.ltb_lt in Hlen. by apply lwe_line_short. }
  apply Nat.ltb_ge in Hlen. destruct (leading_space line) eqn:Hsp.
  { by rewrite lwe_line_space. }
  destruct (split line) as [|w rest] eqn:Hsplit; [simpl in Hlen; lia|].
  destruct (in_vocab vocab w) eqn:Hin.
  - rewrite (lwe_line_token _ _ _ _ w rest); by rewrite ?Hsplit.
  - apply lwe_line_filtered; by rewrite ?Hsplit.
Qed.

Lemma written_key_None_converted vocab line :
  written_key vocab line = None -> converted_fields vocab line = [].
Proof.
  unfold written_key, converted_fields.
  destruct (length (split line) <? 5)%nat; [done|].
  destruct (leading_space line); [done|].
  destruct (split line) as [|w rest]; [done|].
  by destruct (in_vocab vocab w).
Qed.

Lemma written_key_converted_length vocab line k :
  written_key vocab line = Some k ->
  (4 <= length (converted_fields vocab line))%nat.
Proof.
  unfold written_key, converted_fields.
  destruct (length (split line) <? 5)%nat eqn:Hlen; [done|].
  apply Nat.ltb_ge in Hlen.
  destruct (leading_space line); [lia|].
  destruct (split line) as [|w rest]; [done|].
  destruct (in_vocab vocab w); [|done]. simpl in Hlen. lia.
Qed.

Lemma lwe_line_ok_inv vocab d size line d' size' :
  load_word_embeddings_line vocab (d, size) line = Ok (d', size') ->
  match written_key vocab line with
  | None => d' = d
  | Some k => exists v, asarray_float32 (converted_fields vocab line) = Ok v
                        /\ d' = PyDict.setitem k v d
  end.
Proof.
  rewrite lwe_line_cases. destruct (written_key vocab line) as [k|].
  - unfold_result.
    destruct (asarray_float32 (converted_fields vocab line)) as [v|]; [|done].
    intros [= <- _]. by exists v.
  - by intros [= <- _].
Qed.

Lemma lwe_line_raise vocab st line e :
  load_word_embeddings_line vocab st line = Raise e -> e = ValueError.
Proof.
  destruct st as [d size]. rewrite lwe_line_cases.
  destruct (written_key vocab line); [|done]. unfold_result.
  destruct (asarray_float32 (converted_fields vocab line)) eqn:Hv; [done|].
  intros [= <-]. by eapply asarray_float32_raise.
Qed.

Lemma lwe_line_ok_numeric vocab st line st' :
  load_word_embeddings_line vocab st line = Ok st' ->
  Forall (fun f => is_Some (float32_of_str f)) (converted_fields vocab line).
Proof.
  destruct st as [d size], st' as [d' size']. intros Hline.
  apply lwe_line_ok_inv in Hline.
  destruct (written_key vocab line) as [k|] eqn:Hk.
  - destruct Hline as (v & Hv & _). apply asarray_float32_ok. by exists v.
  - by rewrite written_key_None_converted.
Qed.

Lemma lwe_loop_numeric vocab fp st st' :
  for_each (load_word_embeddings_line vocab) fp st = Ok st' ->
  numeric_file vocab fp.
Proof.
  revert st. induction fp as [|line fp IH]; intros st Hrun; [constructor|].
  apply for_each_ok_cons_inv in Hrun as (st1 & Hline & Hrun).
  constructor; [by eapply lwe_line_ok_numeric | by eapply IH].
Qed.

(** Lines that write other keys leave the entry of [k] alone. *)
Lemma lwe_loop_other_keys vocab fp d size d' size' k :
  for_each (load_word_embeddings_line vocab) fp (d, size) = Ok (d', size') ->
  Forall (fun l => written_key vocab l <> Some k) fp ->
  PyDict.get k d' = PyDict.get k d.
Proof.
  revert d size. induction fp as [|line fp IH]; intros d size Hrun Hother.
  - by injection Hrun as <- _.
  - apply for_each_ok_cons_inv in Hrun as ([d1 s1] & Hline & Hrun).
    apply Forall_cons in Hother as [Hl Hother].
    rewrite (IH _ _ Hrun Hother). apply lwe_line_ok_inv in Hline.
    destruct (written_key vocab line) as [k'|]; [|by subst].
    destruct Hline as (v & _ & ->). apply get_setitem_ne. congruence.
Qed.

(** The entry a stored line leaves in the returned table. *)
Lemma lwe_entry_of_line vocab pre post line k d size :
  load_word_embeddings (pre ++ line :: post) vocab = Ok (d, size) ->
  written_key vocab line = Some k ->
  Forall (fun l => written_key vocab l <> Some k) post ->
  exists v, asarray_float32 (converted_fields vocab line) = Ok v
            /\ PyDict.get k d = Some v.
Proof.
  unfold load_word_embeddings. intros Hrun Hk Hpost.
  apply for_each_ok_app_inv in Hrun as ([d1 s1] & _ & Hrun).
  apply for_each_ok_cons_inv in Hrun as ([d2 s2] & Hline & Hrun).
  apply lwe_line_ok_inv in Hline. rewrite Hk in Hline.
  destruct Hline as (v & Hv & ->). exists v. split; [done|].
  rewrite (lwe_loop_other_keys _ _ _ _ _ _ _ Hrun Hpost).
  apply get_setitem_eq.
Qed.

(** Every entry of the table comes from a line that writes its key. *)
Lemma lwe_loop_entry_source vocab fp d size d' size' k v :
  for_each (load_word_embeddings_line vocab) fp (d, size) = Ok (d', size') ->
  PyDict.get k d' = Some v ->
  PyDict.get k d = Some v
  \/ exists line, line ∈ fp /\ written_key vocab line = Some k
                   /\ asarray_float32 (converted_fields vocab line) = Ok v.
Proof.
  revert d size. induction fp as [|line fp IH]; intros d size Hrun Hget.
  - injection Hrun as <- _. by left.
  - apply for_each_ok_cons_inv in Hrun as ([d1 s1] & Hline & Hrun).
    destruct (IH _ _ Hrun Hget) as [Hd1|(l & Hl & Hk & Hv)].
    + apply lwe_line_ok_inv in Hline.
      destruct (written_key vocab line) as [k'|] eqn:Hk'; [|subst; by left].
      destruct Hline as (v' & Hv' & ->). rewrite get_setitem in Hd1.
      case_decide as Heq; [|by left]. subst k'. injection Hd1 as ->.
      right. exists line. split; [left | done].
    + right. exists l. split; [by right | done].
Qed.

(** No field of a line is the string [" "]. *)
Lemma split_from_not_space cur s :
  Forall (fun c => is_space c = false) cur ->
  Forall (fun f => f <> " ") (split_from cur s).
Proof.
  assert (Hfield : forall cur, cur <> [] ->
            Forall (fun c => is_space c = false) cur ->
            string_of_list_ascii (rev cur) <> " ").
  { intros cur' Hne Hcur Heq.
    apply (f_equal list_ascii_of_string) in Heq.
    rewrite list_ascii_of_string_of_list_ascii in Heq. simpl in Heq.
    apply (f_equal (@rev ascii)) in Heq. rewrite rev_involutive in Heq.
    simpl in Heq. subst cur'. by inversion Hcur. }
  revert cur. induction s as [|c s IH]; intros cur Hcur; simpl.
  - destruct cur as [|c' cur']; [constructor|].
    constructor; [by apply Hfield | constructor].
  - destruct (is_space c) eqn:Hc.
    + destruct cur as [|c' cur']; [by apply IH|].
      constructor; [by apply Hfield | by apply IH].
    + apply IH. by constructor.
Qed.

Lemma written_key_space vocab line :
  written_key vocab line = Some " " ->
  leading_space line = true /\ (5 <= length (split line))%nat.
Proof.
  unfold written_key. destruct (length (split line) <? 5)%nat eqn:Hlen; [done|].
  apply Nat.ltb_ge in Hlen. destruct (leading_space line); [done|].
  pose proof (split_from_not_space [] line (Forall_nil_2 _)) as Hsplit.
  fold (split line) in Hsplit.
  destruct (split line) as [|w rest]; [done|].
  destruct (in_vocab vocab w); [|done]. intros [= ->].
  by apply Forall_cons in Hsplit as [? _].
Qed.

End LoaderEntries.

(** X1. With a filter, [load_word_embeddings] never stores a token outside
    the filter: every key of the returned table is in the filter or is the
    whitespace token [" "]. *)
Theorem load_word_embeddings_filter_respected :
  forall (FM : FloatModel) (fp : list string) (filter : list string)
         (d : list (string * list F)) (size : option nat) (w : string),
    load_word_embeddings fp (Some filter) = Ok (d, size) ->
    is_Some (PyDict.get w d) ->
    w = " " \/ w ∈ filter.
Proof.
  intros FM fp filter d size w Hrun [v Hget].
  destruct (lwe_loop_entry_source _ _ _ _ _ _ _ _ Hrun Hget)
    as [Hnil|(line & _ & Hk & _)]; [done|].
  unfold written_key in Hk. destruct (length (split line) <? 5)%nat; [done|].
  destruct (leading_space line); [left; congruence|].
  destruct (split line) as [|w' rest]; [done|]. simpl in Hk.
  destruct (bool_decide (w' ∈ filter)) eqn:Hin; [|done].
  right. apply bool_decide_eq_true in Hin. congruence.
Qed.

Lemma load_word_embeddings_filter_respected_witness :
  "b" = " " \/ "b" ∈ ["b"; "z"].
Proof.
  apply (load_word_embeddings_filter_respected decimal_floats
           ["a 1 2 3 4"; "b 5 6 7 8"; " 1 2 3 4 5"] ["b"; "z"]
           [("b", [5; 6; 7; 8]%Q); (" ", [1; 2; 3; 4; 5]%Q)] (Some 4%nat) "b").
  - reflexivity.
  - by eexists.
Defined.

(** X2. Every entry of the table returned by [load_word_embeddings] was
    written by a line of the file: some line is stored under that key, the
    vector is the conversion of the fields that line converts, and it has at
    least four components. *)
Theorem load_word_embeddings_entry_source :
  forall (FM : FloatModel) (fp : list string) (vocab : option (list string))
         (d : list (string * list F)) (size : option nat)
         (k : string) (v : list F),
    load_word_embeddings fp vocab = Ok (d, size) ->
    PyDict.get k d = Some v ->
    (4 <= length v)%nat
    /\ exists line, line ∈ fp /\ written_key vocab line = Some k
                    /\ asarray_float32 (converted_fields vocab line) = Ok v.
Proof.
  intros FM fp vocab d size k v Hrun Hget.
  destruct (lwe_loop_entry_source _ _ _ _ _ _ _ _ Hrun Hget)
    as [Hnil|(line & Hin & Hk & Hv)]; [done|].
  split; [|by exists line].
  rewrite (asarray_float32_length _ _ Hv).
  by eapply written_key_converted_length.
Qed.

Lemma load_word_embeddings_entry_source_witness :
  (4 <= length [5; 6; 7; 8]%Q)%nat
  /\ exists line, line ∈ ["a 1 2 3 4"; "b 5 6 7 8"]
                  /\ written_key None line = Some "b"
                  /\ asarray_float32 (converted_fields None line)
                     = Ok [5; 6; 7; 8]%Q.
Proof.
  apply (load_word_embeddings_entry_source decimal_floats
           ["a 1 2 3 4"; "b 5 6 7 8"] None
           [("a", [1; 2; 3; 4]%Q); ("b", [5; 6; 7; 8]%Q)] (Some 4%nat)).
  - reflexivity.
  - reflexivity.
Defined.

(** X3. When several lines are stored under the same key, the last one
    wins: a line that writes a key, followed by no line writing the same
    key, leaves the conversion of its own fields under that key in the
    table returned by [load_word_embeddings]. *)
Theorem load_word_embeddings_last_line_wins :
  forall (FM : FloatModel) (pre post : list string) (line : string)
         (vocab : option (list string)) (d : list (string * list F))
         (size : option nat) (k : string),
    load_word_embeddings (pre ++ line :: post) vocab = Ok (d, size) ->
    written_key vocab line = Some k ->
    Forall (fun l => written_key vocab l <> Some k) post ->
    exists v, asarray_float32 (converted_fields vocab line) = Ok v
              /\ PyDict.get k d = Some v.
Proof. intros FM pre post line vocab d size k. apply lwe_entry_of_line. Qed.

Lemma load_word_embeddings_last_line_wins_witness :
  exists v, asarray_float32 (converted_fields None "a 5 6 7 8") = Ok v
            /\ PyDict.get "a" [("a", [5; 6; 7; 8]%Q); ("b", [0; 0; 0; 0]%Q)]
               = Some v.
Proof.
  apply (load_word_embeddings_last_line_wins decimal_floats
           ["a 1 2 3 4"] ["b 0 0 0 0"] "a 5 6 7 8" None _ (Some 4%nat) "a").
  - reflexivity.
  - reflexivity.
  - repeat constructor. vm_compute. congruence.
Defined.

(** X4. [load_word_embeddings] returns exactly when every field it converts
    is the text of a number, and the only exception it raises is the
    [ValueError] of a failed conversion: a malformed number on a line that
    is skipped (fewer than five fields) or filtered out does no harm. *)
Theorem load_word_embeddings_failure :
  forall (FM : FloatModel) (fp : list string) (vocab : option (list string)),
    (numeric_file vocab fp <-> exists r, load_word_embeddings fp vocab = Ok r)
    /\ (forall e, load_word_embeddings fp vocab = Raise e -> e = ValueError).
Proof.
  intros FM fp vocab. split; [split|].
  - apply load_word_embeddings_returns.
  - intros [r Hrun]. by eapply lwe_loop_numeric.
  - intros e Hrun.
    apply for_each_raise_inv in Hrun as (pre & x & post & s' & _ & _ & Hx).
    by eapply lwe_line_raise.
Qed.

(** X5. A filter that lists the first field of every line of the file
    changes nothing: [load_word_embeddings] returns what it returns
    without a filter. *)
Theorem load_word_embeddings_full_filter :
  forall (FM : FloatModel) (fp : list string) (filter : list string),
    (forall line w, line ∈ fp -> head (split line) = Some w -> w ∈ filter) ->
    load_word_embeddings fp (Some filter) = load_word_embeddings fp None.
Proof.
  intros FM fp filter Hall. unfold load_word_embeddings.
  apply for_each_ext_in. intros [d size] line Hin.
  rewrite !lwe_line_cases.
  assert (written_key (Some filter) line = written_key None line
          /\ converted_fields (Some filter) line = converted_fields None line)
    as [-> ->]; [|done].
  unfold written_key, converted_fields.
  destruct (length (split line) <? 5)%nat; [done|].
  destruct (leading_space line); [done|].
  destruct (split line) as [|w rest] eqn:Hsplit; [done|]. simpl.
  rewrite bool_decide_eq_true_2; [done|].
  apply (Hall line w Hin). by rewrite Hsplit.
Qed.

Lemma load_word_embeddings_full_filter_witness :
  load_word_embeddings ["a 1 2 3 4"; " 1 2 3 4 5"; "b 5 6 7 8"]
    (Some ["1"; "b"; "a"])
  = load_word_embeddings ["a 1 2 3 4"; " 1 2 3 4 5"; "b 5 6 7 8"] None.
Proof.
  apply (load_word_embeddings_full_filter decimal_floats).
  intros line w Hin Hw.
  apply list_elem_of_In in Hin. simpl in Hin.
  destruct Hin as [<-|[<-|[<-|[]]]]; injection Hw as <-;
    apply list_elem_of_In; simpl; tauto.
Defined.

(** X6. The vector stored for the whitespace token is the conversion of
    all the fields of the last accepted line that begins with a space, the
    first field included: it has as many components as the line has
    fields. *)
Theorem load_word_embeddings_whitespace_vector :
  forall (FM : FloatModel) (pre post : list string) (line : string)
         (vocab : option (list string)) (d : list (string * list F))
         (size : option nat),
    load_word_embeddings (pre ++ line :: post) vocab = Ok (d, size) ->
    leading_space line = true -> (5 <= length (split line))%nat ->
    Forall (fun l => leading_space l = false \/ (length (split l) < 5)%nat) post ->
    exists v, asarray_float32 (split line) = Ok v
              /\ PyDict.get " " d = Some v
              /\ length v = length (split line).
Proof.
  intros FM pre post line vocab d size Hrun Hsp Hlen Hpost.
  assert (written_key vocab line = Some " ") as Hk.
  { unfold written_key. apply Nat.ltb_ge in Hlen. by rewrite Hlen, Hsp. }
  assert (converted_fields vocab line = split line) as Hconv.
  { unfold converted_fields. apply Nat.ltb_ge in Hlen. by rewrite Hlen, Hsp. }
  destruct (lwe_entry_of_line vocab pre post line " " d size Hrun Hk)
    as (v & Hv & Hget).
  - eapply Forall_impl; [exact Hpost|]. intros l Hl Hkl.
    apply written_key_space in Hkl as [Hsp' Hlen']. destruct Hl; [congruence|lia].
  - rewrite Hconv in Hv. exists v. split; [done|]. split; [done|].
    by apply asarray_float32_length.
Qed.

Lemma load_word_embeddings_whitespace_vector_witness :
  exists v, asarray_float32 (split " 1 2 3 4 5") = Ok v
            /\ PyDict.get " " [(" ", [1; 2; 3; 4; 5]%Q); ("b", [5; 6; 7; 8]%Q)]
               = Some v
            /\ length v = length (split " 1 2 3 4 5").
Proof.
  apply (load_word_embeddings_whitespace_vector decimal_floats
           [" 9 9 9 9 9"] ["b 5 6 7 8"; " 1 2"] " 1 2 3 4 5" None _ (Some 4%nat)).
  - reflexivity.
  - reflexivity.
  - vm_compute. lia.
  - apply Forall_cons_2; [by left|].
    apply Forall_cons_2; [right; vm_compute; lia | apply Forall_nil_2].
Defined.

(** ** [get_embedding_matrix]: failures, untouched rows, modes and order *)

Section BuilderRows.
Context `{FloatModel}.
Implicit Types (E : list (string * list F)) (mat : list (list F)).

Lemma norm_index_ok_range n i k :
  norm_index n i = Ok k -> - Z.of_nat n <= i < Z.of_nat n.
Proof.
  unfold norm_index.
  destruct ((0 <=? i) && (i <? Z.of_nat n)) eqn:Hin.
  - intros _. apply andb_true_iff in Hin as [? ?]. lia.
  - destruct ((- Z.of_nat n <=? i) && (i <? 0)) eqn:Hneg; [|done].
    intros _. apply andb_true_iff in Hneg as [? ?]. lia.
Qed.

Lemma broadcast_ok_inv cols vec row :
  broadcast cols vec = Ok row ->
  (length vec = cols /\ row = vec)
  \/ (exists x, vec = [x] /\ row = replicate cols x).
Proof.
  unfold broadcast. destruct (length vec =? cols)%nat eqn:Hlen.
  - intros [= <-]. left. by apply Nat.eqb_eq in Hlen.
  - destruct vec as [|x [|y vec]]; [done| |done].
    intros [= <-]. right. by exists x.
Qed.

Lemma assign_ok_inv lo E cols mat item mat' :
  assign lo E cols mat item = Ok mat' ->
  length mat' = length mat
  /\ forall vec, lookup_vec lo E item.1 = Some vec ->
       - Z.of_nat (length mat) <= item.2 < Z.of_nat (length mat)
       /\ (length vec = cols \/ length vec = 1%nat).
Proof.
  unfold assign. destruct (lookup_vec lo E item.1) as [vec|].
  - intros Hset. split; [by apply set_row_shape in Hset as [? _]|].
    intros ? [= <-]. unfold set_row in Hset. unfold_result.
    destruct (norm_index (length mat) item.2) as [k|] eqn:Hk; [|done].
    destruct (broadcast cols vec) as [row|] eqn:Hrow; [|done].
    split; [by eapply norm_index_ok_range|].
    apply broadcast_ok_inv in Hrow as [[? _]|(x & -> & _)]; [by left | by right].
  - intros [= <-]. by split.
Qed.

Lemma assign_loop_ok_inv lo E cols items mat mat' word wid vec :
  for_each (assign lo E cols) items mat = Ok mat' ->
  (word, wid) ∈ items -> lookup_vec lo E word = Some vec ->
  - Z.of_nat (length mat) <= wid < Z.of_nat (length mat)
  /\ (length vec = cols \/ length vec = 1%nat).
Proof.
  revert mat. induction items as [|item items IH]; intros mat Hrun Hin Hvec.
  - by apply elem_of_nil in Hin.
  - apply for_each_ok_cons_inv in Hrun as (mat1 & Hb & Hrun).
    apply assign_ok_inv in Hb as [Hlen Hitem].
    apply elem_of_cons in Hin as [<-|Hin].
    + by apply Hitem.
    + rewrite <- Hlen. by apply (IH mat1).
Qed.

(** The converse of [get_embedding_matrix_returns]. *)
Lemma get_embedding_matrix_ok_inv E V es lo mat :
  get_embedding_matrix E V es lo = Ok mat ->
  E <> [] /\ 0 <= row_count es V
  /\ forall word wid vec,
       (word, wid) ∈ Vocabulary.vocab V -> lookup_vec lo E word = Some vec ->
       - row_count es V <= wid < row_count es V
       /\ (length vec = emb_dim E \/ length vec = 1%nat).
Proof.
  rewrite get_embedding_matrix_unfold. unfold_result. intros Hrun.
  destruct (next_iter (PyDict.values E)) as [first|] eqn:Hfirst; [|done].
  split; [by destruct E|].
  apply next_iter_values in Hfirst. rewrite Hfirst in Hrun.
  destruct (np_zeros2 _ _) as [mat0|] eqn:Hz; [|done].
  apply np_zeros2_ok in Hz as [Hr ->]. split; [done|].
  intros word wid vec Hin Hvec.
  pose proof (assign_loop_ok_inv _ _ _ _ _ _ _ _ _ Hrun Hin Hvec) as Hok.
  by rewrite length_replicate, Z2Nat.id in Hok.
Qed.

(** A row to which no matched token points is zeros. *)
Lemma get_embedding_matrix_zero_row E V es lo mat k :
  get_embedding_matrix E V es lo = Ok mat ->
  Forall (fun item => 0 <= item.2) (Vocabulary.vocab V) ->
  (forall item, item ∈ Vocabulary.vocab V -> Z.to_nat item.2 = k ->
                lookup_vec lo E item.1 = None) ->
  (k < length mat)%nat ->
  mat !! k = Some (zeros1 (emb_dim E)).
Proof.
  intros Hrun Hpos Hk Hlt.
  pose proof (builder_shape _ _ _ _ _ Hrun) as [Hrows _].
  rewrite get_embedding_matrix_unfold in Hrun. unfold_result.
  destruct (next_iter (PyDict.values E)) as [first|] eqn:Hfirst; [|done].
  apply next_iter_values in Hfirst. rewrite Hfirst in Hrun.
  destruct (np_zeros2 _ _) as [mat0|] eqn:Hz; [|done].
  apply np_zeros2_ok in Hz as [Hr ->].
  rewrite (assign_loop_untouched _ _ _ _ _ _ _ Hrun Hpos Hk).
  rewrite Nat2Z.id. apply lookup_replicate_2. lia.
Qed.

Lemma lookup_vec_lowercase E word :
  str_lower word = word -> lookup_vec true E word = lookup_vec false E word.
Proof.
  intros Hlow. unfold lookup_vec. rewrite Hlow.
  by destruct (PyDict.get word E).
Qed.

End BuilderRows.



(** X8. In the matrix returned by [get_embedding_matrix], for a vocabulary
    with non-negative ids, every row to which no matched token points is
    all zeros: the rows of unmatched tokens and the rows no token has as
    its id. *)
Theorem get_embedding_matrix_unmatched_rows :
  forall (FM : FloatModel) (E : list (string * list F)) (V : Vocabulary.t)
         (es : option Z) (lo : bool) (mat : list (list F)) (k : nat),
    get_embedding_matrix E V es lo = Ok mat ->
    Forall (fun item => 0 <= item.2) (Vocabulary.vocab V) ->
    (forall item, item ∈ Vocabulary.vocab V -> Z.to_nat item.2 = k ->
                  lookup_vec lo E item.1 = None) ->
    (k < length mat)%nat ->
    mat !! k = Some (zeros1 (emb_dim E)).
Proof. intros FM E V es lo mat k. apply get_embedding_matrix_zero_row. Qed.

Lemma get_embedding_matrix_unmatched_rows_witness :
  [[0; 0]; [1; 1]; [0; 0]; [0; 0]]%Q !! 3%nat = Some [0; 0]%Q.
Proof.
  apply (get_embedding_matrix_unmatched_rows decimal_floats
           example_table example_vocab (Some 4) false _ 3%nat).
  - reflexivity.
  - repeat constructor; simpl; lia.
  - intros item Hin Hk. apply list_elem_of_In in Hin. simpl in Hin.
    destruct Hin as [<-|[<-|[]]]; simpl in Hk; lia.
  - simpl. lia.
Defined.

(** X9. When every token of the vocabulary is its own lowercase form, the
    two modes of [get_embedding_matrix] agree: [lowercase_only=True] gives
    the result of [lowercase_only=False], error included. *)
Theorem get_embedding_matrix_lowercase_vocab :
  forall (FM : FloatModel) (E : list (string * list F)) (V : Vocabulary.t)
         (es : option Z),
    (forall word wid, (word, wid) ∈ Vocabulary.vocab V -> str_lower word = word) ->
    get_embedding_matrix E V es true = get_embedding_matrix E V es false.
Proof.
  intros FM E V es Hlow. rewrite !get_embedding_matrix_unfold. unfold_result.
  destruct (next_iter (PyDict.values E)) as [first|]; [|done].
  destruct (np_zeros2 _ _) as [mat0|]; [|done].
  apply for_each_ext_in. intros mat [word wid] Hin. unfold assign.
  cbn [fst snd]. by rewrite (lookup_vec_lowercase E word (Hlow word wid Hin)).
Qed.

Lemma get_embedding_matrix_lowercase_vocab_witness :
  get_embedding_matrix example_table example_vocab (Some 3) true
  = get_embedding_matrix example_table example_vocab (Some 3) false.
Proof.
  apply (get_embedding_matrix_lowercase_vocab decimal_floats).
  intros word wid Hin. apply list_elem_of_In in Hin. simpl in Hin.
  destruct Hin as [[= <- _]|[[= <- _]|[]]]; reflexivity.
Defined.

(** X10. The matrix does not depend on the order in which the vocabulary
    lists its tokens: for distinct non-negative ids, a call of
    [get_embedding_matrix] that returns a matrix returns the same matrix
    for every reordering of the vocabulary. *)
Theorem get_embedding_matrix_order :
  forall (FM : FloatModel) (E : list (string * list F)) (V V' : Vocabulary.t)
         (es : option Z) (lo : bool) (mat : list (list F)),
    Vocabulary.vocab V ≡ₚ Vocabulary.vocab V' ->
    NoDup (Vocabulary.vocab V).*2 ->
    Forall (fun item => 0 <= item.2) (Vocabulary.vocab V) ->
    get_embedding_matrix E V es lo = Ok mat ->
    get_embedding_matrix E V' es lo = Ok mat.
Proof.
  intros FM E V V' es lo mat Hperm Hnd Hpos Hrun.
  assert (row_count es V' = row_count es V) as Hrows.
  { unfold row_count, Vocabulary.len, PyDict.len. by rewrite Hperm. }
  assert (NoDup (Vocabulary.vocab V').*2) as Hnd' by by rewrite <- Hperm.
  assert (Forall (fun item => 0 <= item.2) (Vocabulary.vocab V')) as Hpos'
    by by rewrite <- Hperm.
  destruct (get_embedding_matrix_ok_inv _ _ _ _ _ Hrun) as (HE & Hr & Hok).
  destruct (get_embedding_matrix_returns E V' es lo) as [mat' Hrun'];
    [done | by rewrite Hrows | |].
  { intros word wid vec Hin Hvec. rewrite Hrows. apply (Hok word wid vec); [|done].
    by rewrite Hperm. }
  rewrite Hrun'. f_equal. symmetry.
  pose proof (builder_shape _ _ _ _ _ Hrun) as [Hlen _].
  pose proof (builder_shape _ _ _ _ _ Hrun') as [Hlen' _].
  assert (length mat' = length mat) as Hlens by lia.
  apply list_eq. intros k.
  destruct (decide (k < length mat)%nat) as [Hk|Hk].
  2: { rewrite !lookup_ge_None_2; [done | lia | lia]. }
  destruct (decide (Exists (fun item => Z.to_nat item.2 = k
                                        /\ is_Some (lookup_vec lo E item.1))
                           (Vocabulary.vocab V))) as [Hex|Hnone].
  - apply Exists_exists in Hex as ([word wid] & Hin & <- & [vec Hvec]).
    simpl in *.
    pose proof (get_embedding_matrix_row _ _ _ _ _ word wid Hrun Hnd Hpos Hin)
      as Hrow.
    assert ((word, wid) ∈ Vocabulary.vocab V') as Hin' by by rewrite <- Hperm.
    pose proof (get_embedding_matrix_row _ _ _ _ _ word wid Hrun' Hnd' Hpos' Hin')
      as Hrow'.
    rewrite Hvec in Hrow, Hrow'.
    destruct Hrow as (row & Hb & ->), Hrow' as (row' & Hb' & ->). congruence.
  - assert (forall item, item ∈ Vocabulary.vocab V -> Z.to_nat item.2 = k ->
                         lookup_vec lo E item.1 = None) as Hfree.
    { intros item Hin Hitem.
      destruct (lookup_vec lo E item.1) as [vec|] eqn:Hvec; [|done].
      exfalso. apply Hnone, Exists_exists. exists item. by eauto. }
    rewrite (get_embedding_matrix_zero_row _ _ _ _ _ _ Hrun Hpos Hfree Hk).
    rewrite (get_embedding_matrix_zero_row _ _ _ _ _ k Hrun' Hpos'); [done| |lia].
    intros item Hin. apply Hfree. by rewrite Hperm.
Qed.

Lemma get_embedding_matrix_order_witness :
  get_embedding_matrix example_table
    {| Vocabulary.vocab := [("dog", 2); ("cat", 1)] |} (Some 3) false
  = Ok [[0; 0]; [1; 1]; [0; 0]]%Q.
Proof.
  apply (get_embedding_matrix_order decimal_floats example_table example_vocab).
  - apply perm_swap.
  - simpl. repeat constructor; rewrite ?elem_of_cons, ?elem_of_nil; lia.
  - repeat constructor; simpl; lia.
  - reflexivity.
Defined.

(** ** [fill_embedding_mat]: failures, broadcasting, padding and key case *)

Section FillerCells.
Context `{FloatModel}.

Lemma map_result_lookup {X Y : Type} (f : X -> result Y) xs ys i x :
  map_result f xs = Ok ys -> xs !! i = Some x ->
  exists y, ys !! i = Some y /\ f x = Ok y.
Proof.
  revert ys i. induction xs as [|x0 xs IH]; intros ys i; simpl; [done|].
  unfold_result. destruct (f x0) as [y0|] eqn:Hy0; [|done].
  destruct (map_result f xs) as [ys'|]; [|done]. intros [= <-].
  destruct i as [|i]; simpl.
  - intros [= <-]. by exists y0.
  - by apply IH.
Qed.





(** A loop whose iterations all return the state they were given. *)
Lemma for_each_unchanged {S X : Type} (body : S -> X -> result S) xs s :
  (forall s x, x ∈ xs -> body s x = Ok s) -> for_each body xs s = Ok s.
Proof.
  induction xs as [|x xs IH]; intros Hid; simpl; [done|].
  rewrite Hid by left. unfold_result. apply IH.
  intros s' y Hy. apply Hid. by right.
Qed.

Lemma elem_of_enumerate_from {A : Type} (n : nat) (xs : list A) j x :
  (j, x) ∈ enumerate_from n xs -> x ∈ xs.
Proof.
  revert n. induction xs as [|x0 xs IH]; intros n; simpl.
  - by intros ?%elem_of_nil.
  - intros [[= _ ->]|Hin]%elem_of_cons; [left | right; by eapply IH].
Qed.

Lemma lower_char_idemp c : lower_char (lower_char c) = lower_char c.
Proof. destruct c as [[] [] [] [] [] [] [] []]; reflexivity. Qed.

Lemma str_lower_idemp s : str_lower (str_lower s) = str_lower s.
Proof.
  induction s as [|c s IH]; simpl; [done|]. by rewrite lower_char_idemp, IH.
Qed.

(** Looking up a lowercase key skips every entry whose key is not. *)
Lemma get_lowercase_keys {V : Type} (d : list (string * V)) (k : string) :
  str_lower k = k ->
  PyDict.get k (filter (fun kv => str_lower kv.1 = kv.1) d) = PyDict.get k d.
Proof.
  intros Hk. induction d as [|[k' v] d IH]; [done|].
  rewrite filter_cons. simpl. case_decide as Hk'; simpl.
  - case_decide; [done | apply IH].
  - rewrite IH. case_decide; [congruence | done].
Qed.

End FillerCells.



(** X12. Whenever [fill_embedding_mat] returns (rectangular id matrix), the
    cell of a positive id whose lowercased source token is in the embedding
    lexicon holds the vector itself when it has [emb_size] components, and
    the single component repeated [emb_size] times when it has one
    component; every other cell is zeros. *)
Theorem fill_embedding_mat_broadcast :
  forall (FM : FloatModel) (src_mat : list (list Z)) (src_lex : list (Z * string))
         (emb_lex : list (string * list F)) (emb_size : Z)
         (emb_mat : list (list (list F))) (i j : nat) (sen : list Z) (w : Z),
    Forall (fun sen => length sen = shape1 src_mat) src_mat ->
    fill_embedding_mat src_mat src_lex emb_lex emb_size = Ok emb_mat ->
    src_mat !! i = Some sen -> sen !! j = Some w ->
    exists row cell,
      emb_mat !! i = Some row /\ row !! j = Some cell
      /\ match (if 0 <? w
                then PyDict.get (str_lower (str_of_get (PyDict.get w src_lex)))
                                emb_lex
                else None) with
         | Some vec =>
             (length vec = Z.to_nat emb_size /\ cell = vec)
             \/ (exists x, vec = [x] /\ cell = replicate (Z.to_nat emb_size) x)
         | None => cell = zeros1 (Z.to_nat emb_size)
         end.
Proof.
  intros FM src_mat src_lex emb_lex emb_size emb_mat i j sen w Hrect Hrun Hi Hj.
  rewrite fill_embedding_mat_cellwise in Hrun by done.
  destruct (emb_size <? 0); [done|].
  destruct (map_result_lookup _ _ _ _ _ Hrun Hi) as (row & Hrow & Hsen).
  destruct (map_result_lookup _ _ _ _ _ Hsen Hj) as (cell & Hcell & Hw).
  exists row, cell. split; [done|]. split; [done|].
  unfold cell_result in Hw. destruct (0 <? w); [|by injection Hw as <-].
  destruct (PyDict.get _ emb_lex) as [vec|]; [|by injection Hw as <-].
  by apply broadcast_ok_inv in Hw.
Qed.

Lemma fill_embedding_mat_broadcast_witness :
  exists row cell,
    [[[7; 7; 7]; [0; 0; 0]]]%Q !! 0%nat = Some row /\ row !! 0%nat = Some cell
    /\ ((length [7%Q] = Z.to_nat 3 /\ cell = [7%Q])
        \/ (exists x, [7%Q] = [x] /\ cell = replicate (Z.to_nat 3) x)).
Proof.
  apply (fill_embedding_mat_broadcast decimal_floats
           [[1; 0]] [(1, "Cat")] [("cat", [7]%Q)] 3 _ 0%nat 0%nat [1; 0] 1).
  - repeat constructor.
  - reflexivity.
  - reflexivity.
  - reflexivity.
Defined.

(** X13. On an id matrix without any positive id, [fill_embedding_mat]
    returns the all-zero tensor whatever the two lexicons hold: nothing is
    looked up for padding. *)
Theorem fill_embedding_mat_padding :
  forall (FM : FloatModel) (src_mat : list (list Z)) (src_lex : list (Z * string))
         (emb_lex : list (string * list F)) (emb_size : Z),
    0 <= emb_size ->
    (forall sen w, sen ∈ src_mat -> w ∈ sen -> w <= 0) ->
    fill_embedding_mat src_mat src_lex emb_lex emb_size
    = Ok (replicate (shape0 src_mat)
            (replicate (shape1 src_mat) (zeros1 (Z.to_nat emb_size)))).
Proof.
  intros FM src_mat src_lex emb_lex emb_size Hsize Hpad.
  unfold fill_embedding_mat, np_zeros3.
  replace (Z.of_nat (shape0 src_mat) <? 0) with false
    by (symmetry; apply Z.ltb_ge; lia).
  replace (Z.of_nat (shape1 src_mat) <? 0) with false
    by (symmetry; apply Z.ltb_ge; lia).
  replace (emb_size <? 0) with false by (symmetry; apply Z.ltb_ge; lia).
  simpl orb. unfold_result. rewrite !Nat2Z.id.
  apply for_each_unchanged. intros emb_mat [i sen] Hsen.
  apply elem_of_enumerate_from in Hsen.
  apply for_each_unchanged. intros emb_mat' [j w] Hw.
  apply elem_of_enumerate_from in Hw. unfold fill_cell.
  by replace (0 <? w) with false
    by (symmetry; apply Z.ltb_ge; by eapply Hpad).
Qed.

Lemma fill_embedding_mat_padding_witness :
  fill_embedding_mat [[0; -1]; [0; 0]] [(1, "Cat")] [("cat", [1; 2; 3]%Q)] 2
  = Ok [[[0; 0]; [0; 0]]; [[0; 0]; [0; 0]]]%Q.
Proof.
  apply (fill_embedding_mat_padding decimal_floats
           [[0; -1]; [0; 0]] [(1, "Cat")] [("cat", [1; 2; 3]%Q)] 2).
  - lia.
  - intros sen w Hsen Hw. apply list_elem_of_In in Hsen. simpl in Hsen.
    destruct Hsen as [<-|[<-|[]]]; apply list_elem_of_In in Hw; simpl in Hw;
      repeat destruct Hw as [<-|Hw]; try lia; destruct Hw.
Defined.

(** X14. [fill_embedding_mat] reads the embedding lexicon under lowercased
    keys only, so an entry whose key is not its own lowercase form is never
    used: removing all such entries from the lexicon changes nothing. *)
Theorem fill_embedding_mat_lowercase_keys :
  forall (FM : FloatModel) (src_mat : list (list Z)) (src_lex : list (Z * string))
         (emb_lex : list (string * list F)) (emb_size : Z),
    fill_embedding_mat src_mat src_lex
      (filter (fun kv => str_lower kv.1 = kv.1) emb_lex) emb_size
    = fill_embedding_mat src_mat src_lex emb_lex emb_size.
Proof.
  intros FM src_mat src_lex emb_lex emb_size. unfold fill_embedding_mat.
  unfold_result. destruct (np_zeros3 _ _ _) as [emb_mat|]; [|done].
  apply for_each_ext. intros m [i sen]. apply for_each_ext. intros m' [j w].
  unfold fill_cell. destruct (0 <? w); [|done].
  by rewrite get_lowercase_keys by apply str_lower_idemp.
Qed.

(** X15. With [lowercase_only=True], [get_embedding_matrix] matches the
    keys of the table as they are stored: an entry whose key is not its own
    lowercase form is never written into the matrix, and removing all such
    entries after the first one (which fixes the dimension) changes
    nothing. *)
Theorem get_embedding_matrix_lowercase_keys :
  forall (FM : FloatModel) (e0 : string * list F) (E : list (string * list F))
         (V : Vocabulary.t) (es : option Z),
    get_embedding_matrix
      (e0 :: filter (fun kv => str_lower kv.1 = kv.1) E) V es true
    = get_embedding_matrix (e0 :: E) V es true.
Proof.
  intros FM [k0 v0] E V es. rewrite !get_embedding_matrix_unfold.
  simpl next_iter. unfold_result.
  destruct (np_zeros2 _ _) as [mat0|]; [|done].
  apply for_each_ext. intros mat [word wid]. unfold assign, lookup_vec.
  cbn [fst snd PyDict.get]. case_decide; [done|].
  by rewrite get_lowercase_keys by apply str_lower_idemp.
Qed.

(** ** [load_embedding_file]: failures and keys *)

Section SimpleLoaderEntries.
Context `{FloatModel}.
Implicit Types (d : list (string * list F)) (line : string) (fp : list string).

Lemma array_of_floats_raise fields e :
  array_of_floats fields = Raise e -> e = ValueError.
Proof.
  unfold array_of_floats. induction fields as [|f fields IH]; simpl; [done|].
  unfold_result. destruct (float_of_str f); [|by intros [= <-]].
  destruct (map_result _ fields) as [v|e']; [done|].
  intros [= <-]. by apply IH.
Qed.

Lemma lef_line_ok_inv d line d' :
  load_embedding_file_line d line = Ok d' ->
  exists word rest vec, split line = word :: rest
                        /\ array_of_floats rest = Ok vec
                        /\ d' = PyDict.setitem word vec d.
Proof.
  rewrite lef_line_eq. destruct (split line) as [|word rest]; [done|].
  unfold_result. destruct (array_of_floats rest) as [vec|] eqn:Hvec; [|done].
  intros [= <-]. by exists word, rest, vec.
Qed.

Lemma lef_loop_ok_inv fp d d' :
  for_each load_embedding_file_line fp d = Ok d' ->
  Forall (fun l => exists word rest,
            split l = word :: rest
            /\ Forall (fun f => is_Some (float_of_str f)) rest) fp.
Proof.
  revert d. induction fp as [|line fp IH]; intros d Hrun; [constructor|].
  apply for_each_ok_cons_inv in Hrun as (d1 & Hline & Hrun).
  constructor; [|by eapply IH].
  apply lef_line_ok_inv in Hline as (word & rest & vec & Hsplit & Hvec & _).
  exists word, rest. split; [done|]. apply array_of_floats_ok. by exists vec.
Qed.

(** Every key of the dictionary is the first field of some line. *)
Lemma lef_loop_key_source fp d d' k :
  for_each load_embedding_file_line fp d = Ok d' ->
  is_Some (PyDict.get k d') ->
  is_Some (PyDict.get k d) \/ exists line, line ∈ fp /\ head (split line) = Some k.
Proof.
  revert d. induction fp as [|line fp IH]; intros d Hrun Hget.
  - injection Hrun as <-. by left.
  - apply for_each_ok_cons_inv in Hrun as (d1 & Hline & Hrun).
    destruct (IH _ Hrun Hget) as [Hd1|(l & Hl & Hk)].
    + apply lef_line_ok_inv in Hline as (word & rest & vec & Hsplit & _ & ->).
      rewrite get_setitem in Hd1. case_decide as Heq; [|by left]. subst word.
      right. exists line. split; [left|]. by rewrite Hsplit.
    + right. exists l. split; [by right | done].
Qed.

(** The keys of a dictionary after an assignment depend on its keys only. *)
Lemma setitem_keys {V1 V2 : Type} (k : string) (v1 : V1) (v2 : V2)
    (d1 : list (string * V1)) (d2 : list (string * V2)) :
  d1.*1 = d2.*1 -> (PyDict.setitem k v1 d1).*1 = (PyDict.setitem k v2 d2).*1.
Proof.
  revert d2. induction d1 as [|[k1 x1] d1 IH]; intros [|[k2 x2] d2]; simpl;
    try done.
  intros [= -> Hkeys]. case_decide; simpl; [by rewrite Hkeys|].
  f_equal. by apply IH.
Qed.

End SimpleLoaderEntries.

(** X16. [load_embedding_file] returns exactly when every line has a first
    field and all its other fields are the text of numbers.  When it
    raises, the exception comes from the first line that is not so: an
    [IndexError] for a line without any field (a blank line), a
    [ValueError] for a field that is not a number. *)
Theorem load_embedding_file_failure :
  forall (FM : FloatModel) (fp : list string),
    ((exists d, load_embedding_file fp = Ok d)
     <-> Forall (fun l => exists word rest,
                   split l = word :: rest
                   /\ Forall (fun f => is_Some (float_of_str f)) rest) fp)
    /\ (forall e, load_embedding_file fp = Raise e ->
          exists pre line post,
            fp = pre ++ line :: post
            /\ (exists d, load_embedding_file pre = Ok d)
            /\ ((split line = [] /\ e = IndexError)
                \/ (exists word rest,
                      split line = word :: rest /\ e = ValueError
                      /\ ~ Forall (fun f => is_Some (float_of_str f)) rest))).
Proof.
  intros FM fp. split; [split|].
  - intros [d Hrun]. by eapply lef_loop_ok_inv.
  - apply load_embedding_file_returns.
  - intros e Hrun. unfold load_embedding_file in Hrun.
    apply for_each_raise_inv in Hrun as (pre & line & post & d & -> & Hpre & Hx).
    exists pre, line, post. split; [done|]. split; [by exists d|].
    rewrite lef_line_eq in Hx. destruct (split line) as [|word rest].
    + left. by injection Hx as <-.
    + right. exists word, rest. split; [done|]. unfold_result.
      destruct (array_of_floats rest) as [vec|e'] eqn:Hvec; [done|].
      injection Hx as <-. split; [by eapply array_of_floats_raise|].
      intros Hnum. apply array_of_floats_ok in Hnum as [vec Hvec'].
      congruence.
Qed.

Lemma load_embedding_file_failure_witness :
  ~ exists d, load_embedding_file ["a 1 2"; ""; "b 3"] = Ok d.
Proof.
  intros Hret.
  apply (proj1 (proj1 (load_embedding_file_failure decimal_floats _))) in Hret.
  apply Forall_cons in Hret as [_ Hret].
  apply Forall_cons in Hret as [(word & rest & Hsplit & _) _].
  discriminate Hsplit.
Defined.

(** X17. The keys of the dictionary returned by [load_embedding_file] are
    exactly the first fields of the lines of the file. *)
Theorem load_embedding_file_keys :
  forall (FM : FloatModel) (fp : list string) (d : list (string * list F))
         (k : string),
    load_embedding_file fp = Ok d ->
    (is_Some (PyDict.get k d)
     <-> exists line, line ∈ fp /\ head (split line) = Some k).
Proof.
  intros FM fp d k Hrun. split.
  - intros Hget.
    destruct (lef_loop_key_source _ _ _ _ Hrun Hget) as [[? Hnil]|Hline];
      [done | done].
  - intros (line & Hin & Hk).
    apply list_elem_of_split in Hin as (pre & post & ->).
    destruct (lef_line_entry _ _ _ _ Hrun)
      as (word & rest & vec & Hsplit & _ & Hsome & _).
    rewrite Hsplit in Hk. by injection Hk as <-.
Qed.

Lemma load_embedding_file_keys_witness :
  is_Some (PyDict.get "b" [("a", [1; 2]%Q); ("b", [3]%Q)])
  <-> exists line, line ∈ ["a 1 2"; "b 3"] /\ head (split line) = Some "b".
Proof.
  apply (load_embedding_file_keys decimal_floats ["a 1 2"; "b 3"]).
  reflexivity.
Defined.

(** X18. On a file whose lines all have at least five fields and do not
    begin with a space, [load_word_embeddings] without a filter and
    [load_embedding_file] store the same tokens in the same order whenever
    both return. *)
Theorem loaders_same_keys :
  forall (FM : FloatModel) (fp : list string)
         (d1 : list (string * list F)) (size : option nat)
         (d2 : list (string * list F)),
    Forall (fun l => (5 <= length (split l))%nat /\ leading_space l = false) fp ->
    load_word_embeddings fp None = Ok (d1, size) ->
    load_embedding_file fp = Ok d2 ->
    d1.*1 = d2.*1.
Proof.
  intros FM fp d1 size d2 Hfp. unfold load_word_embeddings, load_embedding_file.
  assert (Hloop : forall a1 s1 a2,
            a1.*1 = a2.*1 ->
            for_each (load_word_embeddings_line None) fp (a1, s1) = Ok (d1, size) ->
            for_each load_embedding_file_line fp a2 = Ok d2 ->
            d1.*1 = d2.*1); [|by apply Hloop].
  induction Hfp as [|line fp [Hlen Hsp] _ IH]; intros a1 s1 a2 Hkeys Hrun1 Hrun2.
  - injection Hrun1 as <- _. by injection Hrun2 as <-.
  - apply for_each_ok_cons_inv in Hrun1 as ([b1 t1] & Hline1 & Hrun1).
    apply for_each_ok_cons_inv in Hrun2 as (b2 & Hline2 & Hrun2).
    apply (IH b1 t1 b2); [|done|done].
    apply lef_line_ok_inv in Hline2 as (word & rest & vec & Hsplit & _ & ->).
    apply lwe_line_ok_inv in Hline1. unfold written_key in Hline1.
    apply Nat.ltb_ge in Hlen. rewrite Hlen, Hsp, Hsplit in Hline1. simpl in Hline1.
    destruct Hline1 as (v & _ & ->). by apply setitem_keys.
Qed.

Lemma loaders_same_keys_witness :
  [("a", [1; 2; 3; 4]%Q); ("b", [5; 6; 7; 8]%Q)].*1
  = [("a", [1; 2; 3; 4]%Q); ("b", [5; 6; 7; 8]%Q)].*1.
Proof.
  apply (loaders_same_keys decimal_floats ["a 1 2 3 4"; "b 5 6 7 8"]
           _ (Some 4%nat) _).
  - repeat constructor; vm_compute; lia.
  - reflexivity.
  - reflexivity.
Defined.

(** ** [get_embedding_matrix]: the last token of the vocabulary *)

Section BuilderLast.
Context `{FloatModel}.

Lemma norm_index_value n i k :
  norm_index n i = Ok k ->
  k = Z.to_nat (if 0 <=? i then i else i + Z.of_nat n) /\ (k < n)%nat.
Proof.
  unfold norm_index.
  destruct ((0 <=? i) && (i <? Z.of_nat n)) eqn:Hin.
  - intros [= <-]. apply andb_true_iff in Hin as [Hpos Hlt].
    rewrite Hpos. lia.
  - destruct ((- Z.of_nat n <=? i) && (i <? 0)) eqn:Hneg; [|done].
    intros [= <-]. apply andb_true_iff in Hneg as [Hlo Hlt].
    replace (0 <=? i) with false by (symmetry; apply Z.leb_gt; lia). lia.
Qed.

Lemma assign_last_row lo (E : list (string * list F)) cols pre word wid vec
    (mat0 mat : list (list F)) :
  for_each (assign lo E cols) (pre ++ [(word, wid)]) mat0 = Ok mat ->
  lookup_vec lo E word = Some vec ->
  exists row,
    broadcast cols vec = Ok row
    /\ mat !! Z.to_nat (if 0 <=? wid then wid else wid + Z.of_nat (length mat))
       = Some row.
Proof.
  intros Hrun Hvec.
  apply for_each_ok_app_inv in Hrun as (mat1 & _ & Hrun).
  apply for_each_ok_cons_inv in Hrun as (mat2 & Hb & Hnil).
  injection Hnil as <-. unfold assign in Hb. cbn [fst snd] in Hb.
  rewrite Hvec in Hb. unfold set_row in Hb. unfold_result.
  destruct (norm_index (length mat1) wid) as [k|] eqn:Hk; [|done].
  destruct (broadcast cols vec) as [row|]; [|done]. injection Hb as <-.
  exists row. split; [done|]. rewrite length_insert.
  apply norm_index_value in Hk as [<- Hlt]. by apply list_lookup_insert_eq.
Qed.

End BuilderLast.

(** X19. The token that the vocabulary lists last always has its vector in
    its row of the matrix returned by [get_embedding_matrix], whatever the
    ids of the tokens before it; a negative id counts rows from the end, so
    the id [-1] writes the last row. *)
Theorem get_embedding_matrix_last_token :
  forall (FM : FloatModel) (E : list (string * list F)) (V : Vocabulary.t)
         (es : option Z) (lo : bool) (mat : list (list F))
         (pre : list (string * Z)) (word : string) (wid : Z) (vec : list F),
    get_embedding_matrix E V es lo = Ok mat ->
    Vocabulary.vocab V = pre ++ [(word, wid)] ->
    lookup_vec lo E word = Some vec ->
    exists row,
      broadcast (emb_dim E) vec = Ok row
      /\ mat !! Z.to_nat (if 0 <=? wid then wid else wid + Z.of_nat (length mat))
         = Some row.
Proof.
  intros FM E V es lo mat pre word wid vec Hrun HV Hvec.
  rewrite get_embedding_matrix_unfold in Hrun. unfold_result.
  destruct (next_iter (PyDict.values E)) as [first|] eqn:Hfirst; [|done].
  apply next_iter_values in Hfirst. rewrite Hfirst in Hrun.
  destruct (np_zeros2 _ _) as [mat0|]; [|done].
  rewrite HV in Hrun. by eapply assign_last_row.
Qed.

Lemma get_embedding_matrix_last_token_witness :
  exists row,
    broadcast 2 [1; 1]%Q = Ok row
    /\ [[0; 0]; [0; 0]; [1; 1]]%Q
         !! Z.to_nat (if 0 <=? -1 then -1 else -1 + Z.of_nat 3)
       = Some row.
Proof.
  apply (get_embedding_matrix_last_token decimal_floats example_table
           {| Vocabulary.vocab := [("dog", 2); ("cat", -1)] |}
           (Some 3) false [[0; 0]; [0; 0]; [1; 1]]%Q
           [("dog", 2)] "cat" (-1) [1; 1]%Q).
  - reflexivity.
  - reflexivity.
  - reflexivity.
Defined.
